(** * Constraint encodings of the AIND constraint-satisfaction notebook

    The notebook [AIND-Constraint_Satisfaction.ipynb] builds four Z3
    instances (cryptarithmetic, map colouring, N-queens, sudoku), asks
    the solver for a verdict and prints values read from the model.

    The solver itself is external.  What is embedded here is what the
    notebook owns: the constraint terms it constructs, the order in
    which they are added to each [Solver], the guards in front of each
    decoding step and the values the decoding step reads.  A constraint
    is a piece of syntax; a model is an interpretation of the integer
    constants; "m is a model of the instance" is the executable check
    [models m s]. *)

From Stdlib Require Import ZArith List String Ascii Bool Lia DecimalString.
From Stdlib Require DecimalPos DecimalZ.
Import ListNotations.

Local Open Scope string_scope.
Local Open Scope list_scope.
Local Open Scope Z_scope.

(** ** Python values used by the notebook *)

Module Py.

(** Exceptions the notebook's code can raise. *)
Inductive exn : Type :=
| IndexError
| KeyError
| Z3Exception
| AssertionError (msg : string).

Inductive result (A : Type) : Type :=
| Ok (a : A)
| Raise (e : exn).
Arguments Ok {A} a.
Arguments Raise {A} e.

Definition bind {A B} (x : result A) (f : A -> result B) : result B :=
  match x with
  | Ok a => f a
  | Raise e => Raise e
  end.

(** [l[i]] on a list or tuple: a negative index counts from the end,
    an index outside [-len l, len l) raises [IndexError]. *)
Definition getitem {A} (l : list A) (i : Z) : result A :=
  let k := if i <? 0 then Z.of_nat (List.length l) + i else i in
  if k <? 0 then Raise IndexError
  else match nth_error l (Z.to_nat k) with
       | Some x => Ok x
       | None => Raise IndexError
       end.

(** [l[i][j]] on a nested list or tuple. *)
Definition getitem2 {A} (l : list (list A)) (i j : Z) : result A :=
  bind (getitem l i) (fun r => getitem r j).

(** [range(n)] for an integer [n]; empty when [n <= 0]. *)
Definition range (n : Z) : list Z := map Z.of_nat (seq 0 (Z.to_nat n)).

(** The index pairs of [for x in xs for y in ys(x)], in order. *)
Definition for2 {A B} (xs : list A) (ys : A -> list B) : list (A * B) :=
  flat_map (fun x => map (pair x) (ys x)) xs.

(** A list comprehension whose body may raise. *)
Fixpoint traverse {A B} (f : A -> result B) (l : list A) : result (list B) :=
  match l with
  | [] => Ok []
  | x :: r =>
      bind (f x) (fun y => bind (traverse f r) (fun ys => Ok (y :: ys)))
  end.

(** ['%i' % n] and [str(n)] for an integer [n]: signed decimal. *)
Definition format_i (n : Z) : string :=
  NilZero.string_of_int (Z.to_int n).

(** Iterating over a [str] yields its one-character strings. *)
Fixpoint chars (s : string) : list string :=
  match s with
  | EmptyString => []
  | String c r => String c EmptyString :: chars r
  end.

(** [d[k]] on a dict with string keys; a missing key raises. *)
Fixpoint dict_get {V} (d : list (string * V)) (k : string) : result V :=
  match d with
  | [] => Raise KeyError
  | (k', v) :: r => if String.eqb k k' then Ok v else dict_get r k
  end.

(** [assert cond, msg] followed by the rest of the cell. *)
Definition assert_ {A} (cond : bool) (msg : string) (k : result A)
  : result A :=
  if cond then k else Raise (AssertionError msg).

End Py.

Notation "x <- e ;; k" := (Py.bind e (fun x => k))
  (at level 61, e at next level, right associativity).
Notation "l .[ i ]" := (Py.getitem l i) (at level 1, left associativity,
  format "l .[ i ]").
Notation "l .[ i , j ]" := (Py.getitem2 l i j) (at level 1, left associativity,
  format "l .[ i , j ]").

(** ** The fragment of the z3py term language the notebook uses *)

Module Z3.

Inductive ArithRef : Type :=
| Int (name : string)
| IntVal (v : Z)
| Add (a b : ArithRef)
| Sub (a b : ArithRef)
| Mul (a b : ArithRef).

Inductive BoolRef : Type :=
| BoolVal (b : bool)
| Le (a b : ArithRef)
| Ge (a b : ArithRef)
| Eq (a b : ArithRef)
| DistinctN (args : list ArithRef)
| And (a b : BoolRef)
| If (c t e : BoolRef).

(** [Distinct] refuses an empty argument list: with no Z3
    expression among the arguments no context can be found. *)
Definition Distinct (args : list ArithRef) : Py.result BoolRef :=
  match args with
  | [] => Py.Raise Py.Z3Exception
  | _ => Py.Ok (DistinctN args)
  end.

(** [a != b] on expressions is [ExprRef.__ne__], a two-argument
    distinct. *)
Definition Ne (a b : ArithRef) : BoolRef := DistinctN [a; b].

(** A model interprets every integer constant. *)
Definition Model : Type := string -> Z.

Fixpoint eval_a (m : Model) (a : ArithRef) : Z :=
  match a with
  | Int x => m x
  | IntVal v => v
  | Add a b => eval_a m a + eval_a m b
  | Sub a b => eval_a m a - eval_a m b
  | Mul a b => eval_a m a * eval_a m b
  end.

Fixpoint distinctb (l : list Z) : bool :=
  match l with
  | [] => true
  | x :: r => negb (existsb (Z.eqb x) r) && distinctb r
  end.

Fixpoint eval (m : Model) (f : BoolRef) : bool :=
  match f with
  | BoolVal b => b
  | Le a b => eval_a m a <=? eval_a m b
  | Ge a b => eval_a m a >=? eval_a m b
  | Eq a b => eval_a m a =? eval_a m b
  | DistinctN args => distinctb (map (eval_a m) args)
  | And a b => eval m a && eval m b
  | If c t e => if eval m c then eval m t else eval m e
  end.

(** A [Solver] is the list of its assertions, in insertion order;
    [add] conjoins. *)
Definition Solver : Type := list BoolRef.
Definition Solver_new : Solver := [].
Definition add (s : Solver) (cs : list BoolRef) : Solver := s ++ cs.

Definition models (m : Model) (s : Solver) : bool := forallb (eval m) s.

(** Verdicts of [Solver.check()]. *)
Inductive CheckSatResult : Type := sat | unsat | unknown.

(** [CheckSatResult.__eq__] compares the wrapped codes. *)
Definition CheckSatResult_eq (r1 r2 : CheckSatResult) : bool :=
  match r1, r2 with
  | sat, sat | unsat, unsat | unknown, unknown => true
  | _, _ => false
  end.

(** Truth value of a [CheckSatResult] used as a condition: the class
    defines neither [__bool__] nor [__len__], so Python treats every
    instance as true. *)
Definition CheckSatResult_bool (r : CheckSatResult) : bool := true.

(** Integer constants occurring in a term. *)
Fixpoint vars_a (a : ArithRef) : list string :=
  match a with
  | Int x => [x]
  | IntVal _ => []
  | Add a b | Sub a b | Mul a b => vars_a a ++ vars_a b
  end.

Fixpoint vars (f : BoolRef) : list string :=
  match f with
  | BoolVal _ => []
  | Le a b | Ge a b | Eq a b => vars_a a ++ vars_a b
  | DistinctN args => flat_map vars_a args
  | And a b => vars a ++ vars b
  | If c t e => vars c ++ vars t ++ vars e
  end.

Definition update (m : Model) (x : string) (v : Z) : Model :=
  fun y => if String.eqb y x then v else m y.

End Z3.

Import Z3.

(** ** I. Cryptarithmetic: TWO + TWO = FOUR *)

Module Crypt.

Definition F : ArithRef := Int "F".
Definition variables : list string := ["O"; "R"; "T"; "U"; "W"].
Definition z3_vars : list ArithRef := map Int variables.

Definition carry_1 : ArithRef := Int "carry_1".
Definition carry_2 : ArithRef := Int "carry_2".
Definition carry_3 : ArithRef := Int "carry_3".

(** The solver after the declaration cell, the assumptions cell and
    the problem-constraints cell have run.  [0 <= y] with a Python
    integer on the left dispatches to the reflected [y >= 0].  Each
    [z3_vars[k]] is looked up once here; the cells repeat the lookup
    at every use, with the same result. *)
Definition ca_solver : Py.result Solver :=
  let s := Solver_new in
  let s := add s [Ge F (IntVal 0); Le F (IntVal 9)] in
  let s := fold_left
             (fun s y => add s [Ge y (IntVal 0); Le y (IntVal 9)])
             z3_vars s in
  (* leading digits F & T *)
  v2 <- z3_vars.[2] ;;
  let s := add s [Ne v2 (IntVal 0); Ne F (IntVal 0)] in
  (* "Distinct constraint for all the variables" *)
  w <- z3_vars.[-1] ;;
  v0 <- z3_vars.[0] ;;
  u <- z3_vars.[-2] ;;
  v1 <- z3_vars.[1] ;;
  let s := add s [Ne v2 w; Ne w v0; Ne F v0; Ne v0 u; Ne u v1] in
  (* carry chain *)
  let s := add s [Eq (Add (Mul v0 (IntVal 1)) (Mul v0 (IntVal 1)))
                     (Add v1 (Mul carry_1 (IntVal 10)))] in
  let s := add s [Eq (Add (Add (Mul carry_1 (IntVal 10))
                               (Mul w (IntVal 10)))
                          (Mul w (IntVal 10)))
                     (Add (Mul u (IntVal 10))
                          (Mul carry_2 (IntVal 100)))] in
  let s := add s [Eq (Add (Mul carry_2 (IntVal 100))
                          (Mul (Add v2 v2) (IntVal 100)))
                     (Add (Mul v0 (IntVal 100))
                          (Mul carry_3 (IntVal 1000)))] in
  let s := add s [Eq carry_3 F] in
  Py.Ok s.

(** The guard of the decoding cell: [assert ca_solver.check() == sat]. *)
Definition guard (r : CheckSatResult) : bool := CheckSatResult_eq r sat.

(** The values the decoding cell reads, line by line:
    T W O / T W O / F O U R. *)
Definition decode (m : Model) : Py.result (list (list Z)) :=
  t <- z3_vars.[2] ;; w <- z3_vars.[-1] ;; o <- z3_vars.[0] ;;
  u <- z3_vars.[-2] ;; r <- z3_vars.[1] ;;
  let two := map (eval_a m) [t; w; o] in
  Py.Ok [two; two; map (eval_a m) [F; o; u; r]].

(** The decoding cell: the assertion, then the prints.  [model] is
    what [ca_solver.model()] gives, an exception when the solver holds
    no model. *)
Definition decode_cell (r : CheckSatResult) (model : Py.result Model)
  : Py.result (list (list Z)) :=
  Py.assert_ (guard r)
    "Uh oh...the solver did not find a solution. Check your constraints."
    (m <- model ;; decode m).

(** The assignment printed in the notebook's recorded output,
    693 + 693 = 1386, with the carries it forces. *)
Definition printed_model : Model :=
  fun x =>
    if String.eqb x "T" then 6 else
    if String.eqb x "W" then 9 else
    if String.eqb x "O" then 3 else
    if String.eqb x "F" then 1 else
    if String.eqb x "U" then 8 else
    if String.eqb x "R" then 6 else
    if String.eqb x "carry_1" then 0 else
    if String.eqb x "carry_2" then 1 else
    if String.eqb x "carry_3" then 1 else 0.

End Crypt.

(** ** II. Map colouring: Australia with three colours *)

Module MapColoring.

Definition colors : list (string * string) :=
  [("0", "Blue"); ("1", "Red"); ("2", "Green")].

Definition WA : ArithRef := Int "WA".
Definition SA : ArithRef := Int "SA".
Definition NT : ArithRef := Int "NT".
Definition Q : ArithRef := Int "Q".
Definition NSW : ArithRef := Int "NSW".
Definition V : ArithRef := Int "V".
Definition T : ArithRef := Int "T".

(** The solver after the variables cell and the adjacency cell. *)
Definition mc_solver : Solver :=
  let s := Solver_new in
  let s := add s [Ge WA (IntVal 0); Le WA (IntVal 2)] in
  let s := add s [Ge SA (IntVal 0); Le SA (IntVal 2)] in
  let s := add s [Ge NT (IntVal 0); Le NT (IntVal 2)] in
  let s := add s [Ge Q (IntVal 0); Le Q (IntVal 2)] in
  let s := add s [Ge NSW (IntVal 0); Le NSW (IntVal 2)] in
  let s := add s [Ge V (IntVal 0); Le V (IntVal 2)] in
  let s := add s [Ge T (IntVal 0); Le T (IntVal 2)] in
  (* adjacent regions *)
  let s := add s [Ne WA SA; Ne WA NT] in
  let s := add s [Ne NT SA; Ne Q NT] in
  let s := add s [Ne NSW SA; Ne SA Q] in
  let s := add s [Ne NSW SA; Ne NSW V] in
  s.

(** [assert mc_solver.check() == sat]. *)
Definition guard (r : CheckSatResult) : bool := CheckSatResult_eq r sat.

(** [colors[mc_solver.model()[X].as_string()]] for each region, in
    the order printed. *)
Definition decode (m : Model) : Py.result (list string) :=
  Py.traverse (fun x => Py.dict_get colors (Py.format_i (eval_a m x)))
              [WA; NT; SA; Q; NSW; V; T].

Definition decode_cell (r : CheckSatResult) (model : Py.result Model)
  : Py.result (list string) :=
  Py.assert_ (guard r)
    "Uh oh. The solver failed to find a solution. Check your constraints."
    (m <- model ;; decode m).

(** The nine borders of the map of Australia that a colouring has to
    respect. *)
Definition borders : list (ArithRef * ArithRef) :=
  [(WA, SA); (WA, NT); (NT, SA); (NT, Q); (SA, Q); (SA, NSW);
   (Q, NSW); (NSW, V); (SA, V)].

(** An assignment that gives Queensland and New South Wales the same
    colour, and South Australia and Victoria the same colour. *)
Definition clash_model : Model :=
  fun x =>
    if String.eqb x "WA" then 0 else
    if String.eqb x "NT" then 1 else
    if String.eqb x "SA" then 2 else
    if String.eqb x "Q" then 0 else
    if String.eqb x "NSW" then 0 else
    if String.eqb x "V" then 2 else 0.

(** The colouring printed in the notebook's recorded output. *)
Definition printed_model : Model :=
  fun x =>
    if String.eqb x "WA" then 0 else
    if String.eqb x "NT" then 1 else
    if String.eqb x "SA" then 2 else
    if String.eqb x "Q" then 0 else
    if String.eqb x "NSW" then 1 else
    if String.eqb x "V" then 0 else 0.

End MapColoring.

(** ** III. N-queens *)

Module NQueens.

(** The cell also defines [Abs(x) = If(x >= 0, x, -x)]; nothing calls
    it, and [nqueens] writes the diagonal condition as two
    inequalities. *)

(** ['Q_%i' % k]. *)
Definition Q_name (k : Z) : string := String.append "Q_" (Py.format_i k).

(** The variable of column [i], counted from 0: [Int('Q_%i' % (i + 1))]. *)
Definition qv (i : Z) : ArithRef := Int (Q_name (i + 1)).

(** [Q = [Int('Q_%i' % (i + 1)) for i in range(N)]]. *)
Definition Q (N : Z) : list ArithRef := map qv (Py.range N).

(** [val_c]: each queen's row lies in 1..N. *)
Definition val_c (N : Z) (Q : list ArithRef) : Py.result (list BoolRef) :=
  Py.traverse
    (fun i => q <- Q.[i] ;;
              Py.Ok (And (Ge q (IntVal 1)) (Le q (IntVal N))))
    (Py.range N).

(** [col_c]: one [Distinct] over all of [Q]. *)
Definition col_c (Q : list ArithRef) : Py.result (list BoolRef) :=
  d <- Distinct Q ;; Py.Ok [d].

(** [diag_c]: for [i in range(N)], [j in range(i)].  The condition
    [i == j] and the differences [i - j], [j - i] are computed by
    Python on integers before the term is built. *)
Definition diag_c (N : Z) (Q : list ArithRef) : Py.result (list BoolRef) :=
  Py.traverse
    (fun '(i, j) =>
       qi <- Q.[i] ;; qj <- Q.[j] ;;
       Py.Ok (If (BoolVal (i =? j))
                (BoolVal true)
                (And (Ne (Sub qi qj) (IntVal (i - j)))
                     (Ne (Sub qi qj) (IntVal (j - i))))))
    (Py.for2 (Py.range N) Py.range).

Definition nqueens (N : Z) : Py.result Solver :=
  let solver := Solver_new in
  let Q := Q N in
  val_c <- val_c N Q ;;
  col_c <- col_c Q ;;
  diag_c <- diag_c N Q ;;
  Py.Ok (add solver (val_c ++ col_c ++ diag_c)).

(** The guard of the timing loop: [assert nq_solver.check(), "..."],
    the verdict object itself used as the condition. *)
Definition guard (r : CheckSatResult) : bool := CheckSatResult_bool r.

(** One round of the timing loop after the check: the assertion,
    then [solutions.append(nq_solver)]. *)
Definition loop_body (r : CheckSatResult) (nq_solver : Solver)
  (solutions : list Solver) : Py.result (list Solver) :=
  Py.assert_ (guard r)
    "Uh oh...The solver failed to find a solution. Check your constraints."
    (Py.Ok (solutions ++ [nq_solver])).

Definition sizes : list Z := [8; 16; 32; 64].

(** The timing loop, [for N in sizes: ...], without the clock and the
    plot.  The external solver is the parameter [check]. *)
Definition timing_loop (check : Solver -> CheckSatResult)
  : Py.result (list Solver) :=
  fold_left
    (fun acc N =>
       solutions <- acc ;;
       nq_solver <- nqueens N ;;
       loop_body (check nq_solver) nq_solver solutions)
    sizes (Py.Ok []).

(** The diagonal constraints without the guard, one conjunction per
    pair [j < i]: the form the guarded list is compared with. *)
Definition diag_unguarded (N : Z) (Q : list ArithRef)
  : Py.result (list BoolRef) :=
  Py.traverse
    (fun '(i, j) =>
       qi <- Q.[i] ;; qj <- Q.[j] ;;
       Py.Ok (And (Ne (Sub qi qj) (IntVal (i - j)))
                 (Ne (Sub qi qj) (IntVal (j - i)))))
    (Py.for2 (Py.range N) Py.range).

(** The terms [diag_c] and [diag_unguarded] build for the pair of
    columns [(i, j)] once [Q[i]] and [Q[j]] are looked up. *)
Definition unguarded (i j : Z) : BoolRef :=
  And (Ne (Sub (qv i) (qv j)) (IntVal (i - j)))
      (Ne (Sub (qv i) (qv j)) (IntVal (j - i))).

Definition guarded (i j : Z) : BoolRef :=
  If (BoolVal (i =? j)) (BoolVal true) (unguarded i j).

(** What the puzzle asks of the values of [Q_1 .. Q_N]: every row in
    1..N, no two queens on a row, no two queens on a diagonal. *)
Definition is_solution (N : Z) (m : Model) : Prop :=
  (forall i, 1 <= i <= N -> 1 <= m (Q_name i) <= N) /\
  (forall i j, 1 <= i <= N -> 1 <= j <= N -> i <> j ->
               m (Q_name i) <> m (Q_name j)) /\
  (forall i j, 1 <= i < j -> j <= N ->
               Z.abs (m (Q_name i) - m (Q_name j)) <> j - i).

(** A placement of [N] queens, column by column (rows from 1), as a
    model: [Q_k] is the [k]-th entry. *)
Definition model_of (placement : list Z) : Model :=
  fun x =>
    match find (fun '(k, _) => String.eqb x (Q_name k))
               (combine (map (fun i => i + 1) (Py.range (Z.of_nat (List.length placement))))
                        placement) with
    | Some (_, v) => v
    | None => 0
    end.

End NQueens.

(** ** IV. Sudoku *)

Module Sudoku.

Definition rows : string := "ABCDEFGHI".
Definition cols : string := "123456789".

(** [boxes = [[Int("{}{}".format(r, c)) for c in cols] for r in rows]]. *)
Definition boxes : list (list ArithRef) :=
  map (fun r => map (fun c => Int (String.append r c)) (Py.chars cols))
      (Py.chars rows).

Definition board : list (list Z) :=
  [[0; 0; 3; 0; 2; 0; 6; 0; 0];
   [9; 0; 0; 3; 0; 5; 0; 0; 1];
   [0; 0; 1; 8; 0; 6; 4; 0; 0];
   [0; 0; 8; 1; 0; 2; 9; 0; 0];
   [7; 0; 0; 0; 0; 0; 0; 0; 8];
   [0; 0; 6; 7; 0; 8; 2; 0; 0];
   [0; 0; 2; 6; 0; 9; 5; 0; 0];
   [8; 0; 0; 2; 0; 3; 0; 0; 9];
   [0; 0; 5; 0; 1; 0; 3; 0; 0]].

Definition all_cells : list (Z * Z) :=
  Py.for2 (Py.range 9) (fun _ => Py.range 9).
Definition block_cells : list (Z * Z) :=
  Py.for2 (Py.range 3) (fun _ => Py.range 3).

(** Every box has a value between 1 and 9. *)
Definition range_c : Py.result (list BoolRef) :=
  Py.traverse
    (fun '(i, j) => b <- boxes.[i, j] ;;
                    Py.Ok (And (Ge b (IntVal 1)) (Le b (IntVal 9))))
    all_cells.

(** Every box in a row has a distinct value. *)
Definition row_c : Py.result (list BoolRef) :=
  Py.traverse (fun i => r <- boxes.[i] ;; Distinct r) (Py.range 9).

(** Every box in a column has a distinct value. *)
Definition col_c : Py.result (list BoolRef) :=
  Py.traverse
    (fun j => c <- Py.traverse (fun i => boxes.[i, j]) (Py.range 9) ;;
              Distinct c)
    (Py.range 9).

(** Every box in a 3x3 block has a distinct value. *)
Definition block_c : Py.result (list BoolRef) :=
  Py.traverse
    (fun '(i0, j0) =>
       b <- Py.traverse (fun '(i, j) => boxes.[3 * i0 + i, 3 * j0 + j])
                        block_cells ;;
       Distinct b)
    block_cells.

(** The solver after the general-constraints cell.  The template cell
    that follows it, with [# YOUR CODE HERE] inside each call, is not
    valid Python and adds nothing. *)
Definition general : Py.result Solver :=
  let s := Solver_new in
  c <- range_c ;; let s := add s c in
  c <- row_c ;; let s := add s c in
  c <- col_c ;; let s := add s c in
  c <- block_c ;; let s := add s c in
  Py.Ok s.

(** The puzzle-specific constraint of one cell as the notebook writes
    it: a conditional whose condition [board[i][j] == 0] is decided
    by Python. *)
Definition conditional (board : list (list Z)) (p : Z * Z)
  : Py.result BoolRef :=
  let '(i, j) := p in
  g <- board.[i, j] ;; b <- boxes.[i, j] ;;
  Py.Ok (If (BoolVal (g =? 0)) (BoolVal true) (Eq b (IntVal g))).

Definition given_c (board : list (list Z)) : Py.result (list BoolRef) :=
  Py.traverse (conditional board) all_cells.

Definition s_solver : Py.result Solver :=
  s <- general ;;
  c <- given_c board ;;
  Py.Ok (add s c).

(** The other form: an equation for a cell with a nonzero given,
    nothing for a blank cell. *)
Definition fixing (board : list (list Z)) (p : Z * Z)
  : Py.result (list BoolRef) :=
  let '(i, j) := p in
  g <- board.[i, j] ;; b <- boxes.[i, j] ;;
  Py.Ok (if g =? 0 then [] else [Eq b (IntVal g)]).

Definition given_omit (board : list (list Z)) : Py.result (list BoolRef) :=
  cs <- Py.traverse (fixing board) all_cells ;;
  Py.Ok (List.concat cs).

Definition s_solver_omit : Py.result Solver :=
  s <- general ;;
  c <- given_omit board ;;
  Py.Ok (add s c).

(** [assert s_solver.check() == sat]. *)
Definition guard (r : CheckSatResult) : bool := CheckSatResult_eq r sat.

(** The grid the decoding loop prints: [s_solver.model()[box]] for
    every box, row by row. *)
Definition decode (m : Model) : list (list Z) :=
  map (map (eval_a m)) boxes.

Definition decode_cell (r : CheckSatResult) (model : Py.result Model)
  : Py.result (list (list Z)) :=
  Py.assert_ (guard r)
    "Uh oh. The solver didn't find a solution. Check your constraints."
    (m <- model ;; Py.Ok (decode m)).

Definition column (j : nat) (grid : list (list Z)) : list Z :=
  map (fun r => nth j r 0) grid.

(** Block [(i0, j0)], with [i0, j0 < 3], read row by row. *)
Definition block (i0 j0 : nat) (grid : list (list Z)) : list Z :=
  flat_map (fun r => firstn 3 (skipn (3 * j0) r))
           (firstn 3 (skipn (3 * i0) grid)).

Definition cell (i j : nat) (grid : list (list Z)) : Z :=
  nth j (nth i grid []) 0.

(** Each of the digits 1..9 occurs exactly once. *)
Definition complete (l : list Z) : Prop :=
  forall d, 1 <= d <= 9 -> count_occ Z.eq_dec l d = 1%nat.

Definition is_solved (grid : list (list Z)) : Prop :=
  (forall i, (i < 9)%nat -> complete (nth i grid [])) /\
  (forall j, (j < 9)%nat -> complete (column j grid)) /\
  (forall i0 j0, (i0 < 3)%nat -> (j0 < 3)%nat ->
                 complete (block i0 j0 grid)).

(** Every nonzero entry of the board is where the grid has it. *)
Definition keeps_givens (board grid : list (list Z)) : Prop :=
  forall i j, (i < 9)%nat -> (j < 9)%nat ->
              cell i j board <> 0 -> cell i j grid = cell i j board.

(** The solved grid in the notebook's recorded output. *)
Definition printed_grid : list (list Z) :=
  [[4; 8; 3; 9; 2; 1; 6; 5; 7];
   [9; 6; 7; 3; 4; 5; 8; 2; 1];
   [2; 5; 1; 8; 7; 6; 4; 9; 3];
   [5; 4; 8; 1; 3; 2; 9; 7; 6];
   [7; 2; 9; 5; 6; 4; 1; 3; 8];
   [1; 3; 6; 7; 9; 8; 2; 4; 5];
   [3; 7; 2; 6; 8; 9; 5; 1; 4];
   [8; 1; 4; 2; 5; 3; 7; 6; 9];
   [6; 9; 5; 4; 1; 7; 3; 8; 2]].

(** A grid as a model: the box named by row letter and column digit
    takes the grid's entry. *)
Definition model_of (grid : list (list Z)) : Model :=
  fun x =>
    match find (fun '(b, _) => match b with
                               | Int y => String.eqb x y
                               | _ => false
                               end)
               (combine (List.concat boxes) (List.concat grid)) with
    | Some (_, v) => v
    | None => 0
    end.

End Sudoku.

(** ** Cryptarithmetic: the other encoding and the printed numbers *)

Module CryptVariants.
Import Crypt.

(** The encoding the notebook describes next to the carry chain: the
    same declarations and assumptions, then the single large
    constraint
    T*10^2 + W*10^1 + O*10^0 + T*10^2 + W*10^1 + O*10^0
      = F*10^3 + O*10^2 + U*10^1 + R*10^0. *)
Definition ca_solver_single : Py.result Solver :=
  let s := Solver_new in
  let s := add s [Ge F (IntVal 0); Le F (IntVal 9)] in
  let s := fold_left
             (fun s y => add s [Ge y (IntVal 0); Le y (IntVal 9)])
             z3_vars s in
  t <- z3_vars.[2] ;;
  let s := add s [Ne t (IntVal 0); Ne F (IntVal 0)] in
  w <- z3_vars.[-1] ;;
  o <- z3_vars.[0] ;;
  u <- z3_vars.[-2] ;;
  r <- z3_vars.[1] ;;
  let s := add s [Ne t w; Ne w o; Ne F o; Ne o u; Ne u r] in
  let two := Add (Add (Mul t (IntVal 100)) (Mul w (IntVal 10)))
                 (Mul o (IntVal 1)) in
  let s := add s
             [Eq (Add (Add (Add two (Mul t (IntVal 100)))
                           (Mul w (IntVal 10)))
                      (Mul o (IntVal 1)))
                 (Add (Add (Add (Mul F (IntVal 1000))
                                (Mul o (IntVal 100)))
                           (Mul u (IntVal 10)))
                      (Mul r (IntVal 1)))] in
  Py.Ok s.

(** The number a printed row of digits spells, most significant digit
    first. *)
Definition number (digits : list Z) : Z :=
  fold_left (fun acc d => 10 * acc + d) digits 0.

End CryptVariants.

(** ** Map colouring: one palette lookup *)

Module MapPalette.
Import MapColoring.

(** [colors[mc_solver.model()[X].as_string()]] for one region. *)
Definition color_name (m : Model) (x : ArithRef) : Py.result string :=
  Py.dict_get colors (Py.format_i (eval_a m x)).

Definition regions : list ArithRef := [WA; NT; SA; Q; NSW; V; T].

(** The palette read as a function of the colour index. *)
Definition name_of (v : Z) : string :=
  if v =? 0 then "Blue" else if v =? 1 then "Red" else "Green".

(** The seven borders the adjacency cell asserts. *)
Definition asserted_borders : list (ArithRef * ArithRef) :=
  [(WA, SA); (WA, NT); (NT, SA); (Q, NT); (NSW, SA); (SA, Q); (NSW, V)].

End MapPalette.

(** ** Sudoku: any board in place of the literal *)

Module SudokuBoards.
Import Sudoku.

(** The instance the two constraint cells build when [board] is bound
    to [b]. *)
Definition s_solver_for (b : list (list Z)) : Py.result Solver :=
  s <- general ;;
  c <- given_c b ;;
  Py.Ok (add s c).

(** A board the puzzle cell can index: at least nine rows, and at
    least nine entries in each of the first nine. *)
Definition has_81_cells (b : list (list Z)) : Prop :=
  (9 <= List.length b)%nat /\
  forall i, (i < 9)%nat -> (9 <= List.length (nth i b []))%nat.

(** The variable of the box in row [i], column [j], counted from 0. *)
Definition box (i j : nat) : ArithRef := nth j (nth i boxes []) (IntVal 0).

(** The conditional the puzzle cell builds for the cell [(i, j)] of a
    board it can index. *)
Definition conditional_at (b : list (list Z)) (p : Z * Z) : BoolRef :=
  let i := Z.to_nat (fst p) in
  let j := Z.to_nat (snd p) in
  If (BoolVal (cell i j b =? 0)) (BoolVal true)
     (Eq (box i j) (IntVal (cell i j b))).

End SudokuBoards.

(** ** Sudoku: exhaustive search over the cells *)

Module SudokuSearch.
Import Sudoku.

(** The 27 units as lists of cell numbers, cells counted row by row
    from 0 to 80. *)
Definition units : list (list nat) :=
  (map (fun i => map (fun j => 9 * i + j) (seq 0 9)) (seq 0 9)
   ++ map (fun j => map (fun i => 9 * i + j) (seq 0 9)) (seq 0 9)
   ++ flat_map
        (fun i0 =>
           map (fun j0 =>
                  flat_map
                    (fun i => map (fun j => 9 * (3 * i0 + i) + (3 * j0 + j))
                                  (seq 0 3))
                    (seq 0 3))
               (seq 0 3))
        (seq 0 3))%nat.

Definition memb (k : nat) (u : list nat) : bool := existsb (Nat.eqb k) u.

(** The other cells that share a unit with cell [k]. *)
Definition peers (k : nat) : list nat :=
  filter (fun p => negb (Nat.eqb p k)
                   && existsb (fun u => memb p u && memb k u) units)
         (seq 0 81).

Definition peer_table : list (list nat) :=
  Eval vm_compute in map peers (seq 0 81).

Definition digits : list Z := [1; 2; 3; 4; 5; 6; 7; 8; 9].

(** May cell [k] of the partly filled grid [partial] (0 for a cell not
    filled yet) take the digit [d]? *)
Definition candidate_ok (partial : list Z) (k : nat) (d : Z) : bool :=
  forallb (fun p => negb (nth p partial 0 =? d)) (nth k peer_table []).

(** All ways to fill the blank cells of [rest], the cells before them
    holding [done]: a given is kept, a blank tries every digit its
    peers allow. *)
Fixpoint search (done rest : list Z) : list (list Z) :=
  match rest with
  | [] => [done]
  | x :: rest' =>
      if x =? 0
      then flat_map
             (fun d => if candidate_ok (done ++ rest) (List.length done) d
                       then search (done ++ [d]) rest'
                       else [])
             digits
      else search (done ++ [x]) rest'
  end.

(** A filled grid, cells in a row: digits 1..9, the givens in place,
    no digit twice in a unit. *)
Definition valid (givens g : list Z) : Prop :=
  List.length g = 81%nat /\
  Forall (fun v => 1 <= v <= 9) g /\
  (forall k, (k < 81)%nat -> nth k givens 0 <> 0 ->
             nth k g 0 = nth k givens 0) /\
  (forall u, In u units -> NoDup (map (fun i => nth i g 0) u)).

End SudokuSearch.

(** ** N-queens: a placement for each board of the timing loop *)

Module NQueensPlacements.

(** Queens on the even rows, then on the odd rows, column by column;
    when [N mod 6 = 2] the odd rows are taken in the order
    3, 1, 7, 9, ..., N - 1, 5. *)
Definition staircase (N : Z) : list Z :=
  let evens := map (fun i => 2 * (i + 1)) (Py.range (N / 2)) in
  if N mod 6 =? 2
  then evens ++ [3; 1]
             ++ map (fun i => 2 * i + 7) (Py.range ((N - 6) / 2)) ++ [5]
  else evens ++ map (fun i => 2 * i + 1) (Py.range (N / 2)).

End NQueensPlacements.

(** ** Sudoku: the text the decoding cell prints *)

Module SudokuDisplay.
Import Sudoku.

(** [enumerate(l)]. *)
Definition enumerate {A} (l : list A) : list (Z * A) :=
  combine (Py.range (Z.of_nat (List.length l))) l.

(** [s * n] on a string. *)
Fixpoint times (s : string) (n : nat) : string :=
  match n with
  | O => EmptyString
  | S n' => String.append s (times s n')
  end.

Definition newline : string := String (ascii_of_nat 10) EmptyString.

(** Standard output as the text written so far:
    [print(x, end=e)] appends [x] and [e]. *)
Definition print (out x end_ : string) : string :=
  String.append out (String.append x end_).

(** The printing loop of the decoding cell.  [row and row % 3 == 0] is
    true when [row] is a nonzero multiple of 3. *)
Definition display (m : Model) : string :=
  fold_left
    (fun out '(row, _boxes) =>
       let out :=
         if negb (row =? 0) && (row mod 3 =? 0)
         then print out
                (String.append (times "-" 9)
                   (String.append "|"
                      (String.append (times "-" 9)
                         (String.append "|" (times "-" 9)))))
                newline
         else out in
       let out :=
         fold_left
           (fun out '(col, box) =>
              let out :=
                if negb (col =? 0) && (col mod 3 =? 0)
                then print out "|" EmptyString
                else out in
              print out
                (String.append " "
                   (String.append (Py.format_i (eval_a m box)) " "))
                EmptyString)
           (enumerate _boxes) out in
       print out EmptyString newline)
    (enumerate boxes) EmptyString.

(** The whole decoding cell: the assertion, then the printing loop. *)
Definition display_cell (r : CheckSatResult) (model : Py.result Model)
  : Py.result string :=
  Py.assert_ (guard r)
    "Uh oh. The solver didn't find a solution. Check your constraints."
    (m <- model ;; Py.Ok (display m)).

(** The text in the notebook's recorded output, line by line. *)
Definition recorded_lines : list string :=
  [" 4  8  3 | 9  2  1 | 6  5  7 ";
   " 9  6  7 | 3  4  5 | 8  2  1 ";
   " 2  5  1 | 8  7  6 | 4  9  3 ";
   "---------|---------|---------";
   " 5  4  8 | 1  3  2 | 9  7  6 ";
   " 7  2  9 | 5  6  4 | 1  3  8 ";
   " 1  3  6 | 7  9  8 | 2  4  5 ";
   "---------|---------|---------";
   " 3  7  2 | 6  8  9 | 5  1  4 ";
   " 8  1  4 | 2  5  3 | 7  6  9 ";
   " 6  9  5 | 4  1  7 | 3  8  2 "].

Definition recorded_output : string :=
  fold_left (fun out line => print out line newline) recorded_lines
            EmptyString.

End SudokuDisplay.

(** * Properties *)

(** ** Python lists, ranges and comprehensions *)

Module PyFacts.
Import Py.

Lemma In_range (n i : Z) : In i (range n) <-> 0 <= i < n.
Proof.
  unfold range. rewrite in_map_iff. split.
  - intros [k [<- Hk]]. apply in_seq in Hk. lia.
  - intros Hi. exists (Z.to_nat i). split; [lia|]. apply in_seq. lia.
Qed.

Lemma length_range (n : Z) : List.length (range n) = Z.to_nat n.
Proof. unfold range. now rewrite length_map, length_seq. Qed.

Lemma nth_error_range (n : Z) (k : nat) :
  (k < Z.to_nat n)%nat -> nth_error (range n) k = Some (Z.of_nat k).
Proof.
  intros Hk. unfold range. rewrite nth_error_map.
  rewrite (nth_error_nth' _ 0%nat) by now rewrite length_seq.
  rewrite seq_nth by assumption. reflexivity.
Qed.

(** Indexing a comprehension over [range(n)] inside its bounds. *)
Lemma getitem_map_range {A} (f : Z -> A) (n i : Z) :
  0 <= i < n -> getitem (map f (range n)) i = Ok (f i).
Proof.
  intros Hi. unfold getitem.
  replace (i <? 0) with false by (symmetry; apply Z.ltb_ge; lia).
  replace (i <? 0) with false by (symmetry; apply Z.ltb_ge; lia).
  rewrite nth_error_map, nth_error_range by lia.
  simpl. now rewrite Z2Nat.id by lia.
Qed.

Lemma In_for2 {A B} (xs : list A) (ys : A -> list B) (x : A) (y : B) :
  In (x, y) (for2 xs ys) <-> In x xs /\ In y (ys x).
Proof.
  unfold for2. rewrite in_flat_map. split.
  - intros [x' [Hx Hy]]. apply in_map_iff in Hy.
    destruct Hy as [y' [Heq Hy]]. injection Heq as <- <-. now split.
  - intros [Hx Hy]. exists x. split; [assumption|]. now apply in_map.
Qed.

(** A comprehension whose body never raises is a [map]. *)
Lemma traverse_ok {A B} (f : A -> result B) (g : A -> B) (l : list A) :
  (forall x, In x l -> f x = Ok (g x)) -> traverse f l = Ok (map g l).
Proof.
  induction l as [|x r IH]; intros H; simpl.
  - reflexivity.
  - rewrite (H x) by now left. simpl.
    rewrite IH by (intros; apply H; now right). reflexivity.
Qed.

Lemma NoDup_map_injective {A B} (f : A -> B) (l : list A) (x y : A) :
  NoDup (map f l) -> In x l -> In y l -> f x = f y -> x = y.
Proof.
  induction l as [|a r IH]; simpl; intros Hnd Hx Hy Heq.
  - contradiction.
  - inversion Hnd as [|? ? Hnotin Hnd']; subst.
    destruct Hx as [->|Hx], Hy as [->|Hy].
    + reflexivity.
    + exfalso. apply Hnotin. rewrite Heq. now apply in_map.
    + exfalso. apply Hnotin. rewrite <- Heq. now apply in_map.
    + now apply IH.
Qed.

End PyFacts.

(** ** Evaluation of constraints *)

Module Z3Facts.

Lemma existsb_eqb_In (x : Z) (l : list Z) :
  existsb (Z.eqb x) l = true <-> In x l.
Proof.
  rewrite existsb_exists. split.
  - intros [y [Hy Heq]]. apply Z.eqb_eq in Heq. now subst.
  - intros Hin. exists x. split; [assumption | apply Z.eqb_refl].
Qed.

Lemma distinctb_NoDup (l : list Z) : distinctb l = true <-> NoDup l.
Proof.
  induction l as [|x r IH]; simpl.
  - split; [constructor | reflexivity].
  - rewrite andb_true_iff, negb_true_iff, IH. split.
    + intros [Hx Hr]. constructor; [|assumption].
      intro Hin. apply existsb_eqb_In in Hin. congruence.
    + intros Hnd. inversion Hnd as [|? ? Hx Hr]; subst. split; [|assumption].
      destruct (existsb (Z.eqb x) r) eqn:E; [|reflexivity].
      apply existsb_eqb_In in E. contradiction.
Qed.

Lemma eval_Ge m a b : eval m (Ge a b) = true <-> eval_a m b <= eval_a m a.
Proof. simpl. rewrite Z.geb_le. reflexivity. Qed.

Lemma eval_Le m a b : eval m (Le a b) = true <-> eval_a m a <= eval_a m b.
Proof. simpl. apply Z.leb_le. Qed.

Lemma eval_Eq m a b : eval m (Eq a b) = true <-> eval_a m a = eval_a m b.
Proof. simpl. apply Z.eqb_eq. Qed.

Lemma eval_Ne m a b : eval m (Ne a b) = true <-> eval_a m a <> eval_a m b.
Proof.
  unfold Ne. simpl. rewrite andb_true_r, orb_false_r, negb_true_iff.
  apply Z.eqb_neq.
Qed.

Lemma eval_And m a b :
  eval m (And a b) = true <-> eval m a = true /\ eval m b = true.
Proof. simpl. apply andb_true_iff. Qed.

Lemma eval_If_false m t e : eval m (If (BoolVal false) t e) = eval m e.
Proof. reflexivity. Qed.

Lemma eval_If_true m t e : eval m (If (BoolVal true) t e) = eval m t.
Proof. reflexivity. Qed.

Lemma eval_Distinct m args :
  eval m (DistinctN args) = true <-> NoDup (map (eval_a m) args).
Proof. simpl. apply distinctb_NoDup. Qed.

Lemma models_In m s : models m s = true <-> forall c, In c s -> eval m c = true.
Proof. unfold models. apply forallb_forall. Qed.

Lemma models_app m s1 s2 :
  models m (s1 ++ s2) = models m s1 && models m s2.
Proof. unfold models. apply forallb_app. Qed.

(** Being a model depends only on the assertions' truth values. *)
Lemma models_truth_values m s :
  models m s = forallb (fun b : bool => b) (map (eval m) s).
Proof.
  unfold models. induction s as [|c r IH]; simpl; [reflexivity|].
  now rewrite IH.
Qed.

Lemma models_cons m c s :
  models m (c :: s) = true <-> eval m c = true /\ models m s = true.
Proof. unfold models. simpl. apply andb_true_iff. Qed.

(** Two models that agree on the constants of a constraint give it
    the same truth value. *)
Lemma eval_a_ext m m' a :
  (forall x, In x (vars_a a) -> m x = m' x) -> eval_a m a = eval_a m' a.
Proof.
  induction a as [x|v|a IHa b IHb|a IHa b IHb|a IHa b IHb];
    simpl; intros H;
    try reflexivity;
    try (rewrite IHa, IHb;
         [reflexivity | intros; apply H, in_or_app; now right
                      | intros; apply H, in_or_app; now left]).
  apply H. now left.
Qed.

Lemma eval_ext m m' f :
  (forall x, In x (vars f) -> m x = m' x) -> eval m f = eval m' f.
Proof.
  induction f as [b|a b|a b|a b|args|a IHa b IHb|c IHc t IHt e IHe];
    simpl; intros H.
  - reflexivity.
  - rewrite (eval_a_ext m m' a), (eval_a_ext m m' b); auto using in_or_app.
  - rewrite (eval_a_ext m m' a), (eval_a_ext m m' b); auto using in_or_app.
  - rewrite (eval_a_ext m m' a), (eval_a_ext m m' b); auto using in_or_app.
  - f_equal. apply map_ext_in. intros a Ha. apply eval_a_ext.
    intros x Hx. apply H. apply in_flat_map. now exists a.
  - rewrite IHa, IHb; auto using in_or_app.
  - rewrite IHc, IHt, IHe; auto 6 using in_or_app.
Qed.

Lemma update_same m x v : update m x v x = v.
Proof. unfold update. now rewrite String.eqb_refl. Qed.

Lemma update_other m x v y : y <> x -> update m x v y = m y.
Proof. unfold update. intros H. apply String.eqb_neq in H. now rewrite H. Qed.

End Z3Facts.

(** Turn [models m s = true], for an explicit [s], into one
    arithmetic hypothesis per assertion. *)
Ltac split_models H :=
  repeat (apply Z3Facts.models_cons in H;
          let H1 := fresh "C" in destruct H as [H1 H]);
  clear H.

Ltac reflect_evals :=
  repeat match goal with
    | H : eval _ (Ge _ _) = true |- _ => apply Z3Facts.eval_Ge in H
    | H : eval _ (Le _ _) = true |- _ => apply Z3Facts.eval_Le in H
    | H : eval _ (Eq _ _) = true |- _ => apply Z3Facts.eval_Eq in H
    | H : eval _ (DistinctN [_; _]) = true |- _ => apply Z3Facts.eval_Ne in H
    | H : eval _ (Ne _ _) = true |- _ => apply Z3Facts.eval_Ne in H
    | H : eval _ (And _ _) = true |- _ =>
        apply Z3Facts.eval_And in H; destruct H
    | H : eval _ (If (BoolVal false) _ _) = true |- _ =>
        rewrite Z3Facts.eval_If_false in H
    end;
  cbn [eval_a] in *.

(** ** I. Cryptarithmetic *)

Module CryptFacts.
Import Crypt.

(** The three cells run without an exception and leave twenty-three
    assertions in the solver. *)
Lemma ca_solver_runs : exists s, ca_solver = Py.Ok s /\ List.length s = 23%nat.
Proof. eexists. split; reflexivity. Qed.

(** What every model of the instance satisfies, as arithmetic. *)
Lemma ca_model_facts (s : Solver) (m : Model) :
  ca_solver = Py.Ok s -> models m s = true ->
  (0 <= m "F" <= 9 /\ 0 <= m "O" <= 9 /\ 0 <= m "R" <= 9 /\
   0 <= m "T" <= 9 /\ 0 <= m "U" <= 9 /\ 0 <= m "W" <= 9) /\
  (m "T" <> 0 /\ m "F" <> 0) /\
  (m "T" <> m "W" /\ m "W" <> m "O" /\ m "F" <> m "O" /\
   m "O" <> m "U" /\ m "U" <> m "R") /\
  (m "O" * 1 + m "O" * 1 = m "R" + m "carry_1" * 10 /\
   m "carry_1" * 10 + m "W" * 10 + m "W" * 10
     = m "U" * 10 + m "carry_2" * 100 /\
   m "carry_2" * 100 + (m "T" + m "T") * 100
     = m "O" * 100 + m "carry_3" * 1000 /\
   m "carry_3" = m "F").
Proof.
  intros Hs Hm. vm_compute in Hs. injection Hs as <-.
  split_models Hm. reflect_evals. repeat split; assumption.
Qed.

(** C3: every model of the cryptarithmetic instance satisfies
    TWO + TWO = FOUR as an equation between numbers,
    2 * (100 T + 10 W + O) = 1000 F + 100 O + 10 U + R, and gives
    neither leading letter the digit zero. *)
Theorem ca_equation_holds (s : Solver) (m : Model) :
  ca_solver = Py.Ok s -> models m s = true ->
  2 * (100 * m "T" + 10 * m "W" + m "O")
    = 1000 * m "F" + 100 * m "O" + 10 * m "U" + m "R"
  /\ m "T" <> 0 /\ m "F" <> 0.
Proof.
  intros Hs Hm.
  destruct (ca_model_facts s m Hs Hm) as (_ & (HT & HF) & _ & Hc).
  destruct Hc as (H1 & H2 & H3 & H4).
  repeat split; try assumption. lia.
Qed.

Lemma ca_equation_holds_witness :
  exists s, ca_solver = Py.Ok s /\ models printed_model s = true /\
    (2 * (100 * printed_model "T" + 10 * printed_model "W"
          + printed_model "O")
       = 1000 * printed_model "F" + 100 * printed_model "O"
         + 10 * printed_model "U" + printed_model "R"
     /\ printed_model "T" <> 0 /\ printed_model "F" <> 0).
Proof.
  eexists. split; [reflexivity|]. split; [reflexivity|].
  eapply (ca_equation_holds _ printed_model); reflexivity.
Defined.

(** C8: in every model of the carry-chain encoding each of carry_1,
    carry_2 and carry_3 is non-negative and lies in [0, 9].  No
    assertion bounds a carry directly; the bounds follow from the
    column equations and the digit ranges. *)
Theorem ca_carries_in_range (s : Solver) (m : Model) :
  ca_solver = Py.Ok s -> models m s = true ->
  0 <= m "carry_1" <= 9 /\ 0 <= m "carry_2" <= 9 /\ 0 <= m "carry_3" <= 9.
Proof.
  intros Hs Hm.
  destruct (ca_model_facts s m Hs Hm) as (Hr & _ & _ & Hc).
  destruct Hc as (H1 & H2 & H3 & H4). lia.
Qed.

Lemma ca_carries_in_range_witness :
  exists s, ca_solver = Py.Ok s /\ models printed_model s = true /\
    (0 <= printed_model "carry_1" <= 9 /\
     0 <= printed_model "carry_2" <= 9 /\
     0 <= printed_model "carry_3" <= 9).
Proof.
  eexists. split; [reflexivity|]. split; [reflexivity|].
  eapply (ca_carries_in_range _ printed_model); reflexivity.
Defined.

(** C1 asks that F, O, R, T, U, W be pairwise distinct in every
    model.  The assumptions cell adds five inequalities along a chain
    (T-W, W-O, F-O, O-U, U-R) in place of one all-distinct
    constraint, and the assignment the notebook itself prints,
    693 + 693 = 1386, is a model in which T and R are both 6. *)
Theorem ca_printed_model_repeats_digit :
  exists s, ca_solver = Py.Ok s /\ models printed_model s = true /\
    decode printed_model = Py.Ok [[6; 9; 3]; [6; 9; 3]; [1; 3; 8; 6]] /\
    printed_model "T" = printed_model "R" /\
    ~ NoDup (map printed_model ["F"; "O"; "R"; "T"; "U"; "W"]).
Proof.
  eexists. split; [reflexivity|]. split; [reflexivity|].
  split; [reflexivity|]. split; [reflexivity|].
  intro H. apply Z3Facts.distinctb_NoDup in H. discriminate H.
Qed.

(** The pairs of letters the five inequalities leave free to
    coincide are exactly those not on the chain; T and R is one. *)
Lemma ca_chain_is_all_that_is_distinct (s : Solver) (m : Model) :
  ca_solver = Py.Ok s -> models m s = true ->
  m "T" <> m "W" /\ m "W" <> m "O" /\ m "F" <> m "O" /\
  m "O" <> m "U" /\ m "U" <> m "R".
Proof.
  intros Hs Hm.
  now destruct (ca_model_facts s m Hs Hm) as (_ & _ & Hd & _).
Qed.

End CryptFacts.

(** ** II. Map colouring *)

Module MapColoringFacts.
Import MapColoring.

Lemma mc_model_facts (m : Model) :
  models m mc_solver = true ->
  (0 <= m "WA" <= 2 /\ 0 <= m "SA" <= 2 /\ 0 <= m "NT" <= 2 /\
   0 <= m "Q" <= 2 /\ 0 <= m "NSW" <= 2 /\ 0 <= m "V" <= 2 /\
   0 <= m "T" <= 2) /\
  (m "WA" <> m "SA" /\ m "WA" <> m "NT" /\ m "NT" <> m "SA" /\
   m "Q" <> m "NT" /\ m "NSW" <> m "SA" /\ m "SA" <> m "Q" /\
   m "NSW" <> m "V").
Proof.
  intros Hm. unfold mc_solver in Hm. cbn [add Solver_new app] in Hm.
  split_models Hm. reflect_evals. repeat split; assumption.
Qed.

(** The converse: the range bounds and the seven inequalities are
    all the instance asks for. *)
Lemma mc_model_intro (m : Model) :
  (0 <= m "WA" <= 2 /\ 0 <= m "SA" <= 2 /\ 0 <= m "NT" <= 2 /\
   0 <= m "Q" <= 2 /\ 0 <= m "NSW" <= 2 /\ 0 <= m "V" <= 2 /\
   0 <= m "T" <= 2) ->
  (m "WA" <> m "SA" /\ m "WA" <> m "NT" /\ m "NT" <> m "SA" /\
   m "Q" <> m "NT" /\ m "NSW" <> m "SA" /\ m "SA" <> m "Q" /\
   m "NSW" <> m "V") ->
  models m mc_solver = true.
Proof.
  intros Hr Hd. unfold mc_solver. cbn [add Solver_new app].
  repeat (apply Z3Facts.models_cons; split);
    try reflexivity;
    first [ apply Z3Facts.eval_Ge | apply Z3Facts.eval_Le
          | apply Z3Facts.eval_Ne ];
    cbn [eval_a WA SA NT Q NSW V T]; intuition.
Qed.

(** C2 asks that all nine borders of the map separate different
    colours in every model.  The adjacency cell adds NSW != SA twice
    and never adds Q != NSW or SA != V, so there is a model that
    gives Q and NSW the same colour and SA and V the same colour. *)
Theorem mc_model_with_equal_neighbours :
  models clash_model mc_solver = true /\
  In (Q, NSW) borders /\ eval_a clash_model Q = eval_a clash_model NSW /\
  In (SA, V) borders /\ eval_a clash_model SA = eval_a clash_model V /\
  decode clash_model
    = Py.Ok ["Blue"; "Red"; "Green"; "Blue"; "Blue"; "Green"; "Blue"].
Proof.
  split; [reflexivity|].
  split; [unfold borders; simpl; tauto|]. split; [reflexivity|].
  split; [unfold borders; simpl; tauto|]. split; reflexivity.
Qed.

(** The seven borders the instance does enforce. *)
Lemma mc_enforced_borders (m : Model) (u v : ArithRef) :
  models m mc_solver = true ->
  In (u, v) [(WA, SA); (WA, NT); (NT, SA); (NT, Q); (SA, Q); (SA, NSW);
             (NSW, V)] ->
  eval_a m u <> eval_a m v.
Proof.
  intros Hm Hin. destruct (mc_model_facts m Hm) as (_ & Hd).
  simpl in Hin.
  repeat (destruct Hin as [Hin|Hin];
          [injection Hin as <- <-; cbn [eval_a WA SA NT Q NSW V];
           intuition congruence|]).
  contradiction.
Qed.

(** C10: Tasmania occurs in no assertion of the map-colouring
    instance other than its two range bounds, and changing T's value
    in a model to any colour 0, 1 or 2 gives a model again. *)
Theorem mc_T_independent :
  (forall c, In c mc_solver -> In "T" (vars c) ->
             c = Ge T (IntVal 0) \/ c = Le T (IntVal 2)) /\
  (forall (m : Model) (c : Z),
      models m mc_solver = true -> 0 <= c <= 2 ->
      models (update m "T" c) mc_solver = true /\
      forall x, x <> "T" -> update m "T" c x = m x).
Proof.
  split.
  - intros c Hin Hv. unfold mc_solver in Hin.
    cbn [add Solver_new app] in Hin. simpl in Hin.
    repeat (destruct Hin as [Hin|Hin];
            [subst c; first [ now left | now right
                            | exfalso; simpl in Hv;
                              repeat (destruct Hv as [Hv|Hv];
                                      [discriminate Hv|]);
                              exact Hv ]|]).
    contradiction.
  - intros m c Hm Hc. split.
    + destruct (mc_model_facts m Hm) as (Hr & Hd).
      apply mc_model_intro;
        rewrite ?Z3Facts.update_same;
        rewrite ?Z3Facts.update_other by discriminate;
        intuition.
    + intros x Hx. now apply Z3Facts.update_other.
Qed.

Lemma mc_T_independent_witness :
  models printed_model mc_solver = true /\ 0 <= 2 <= 2 /\
  models (update printed_model "T" 2) mc_solver = true.
Proof.
  split; [reflexivity|]. split; [lia|].
  apply (proj2 mc_T_independent printed_model 2); [reflexivity | lia].
Defined.

End MapColoringFacts.

(** ** III. N-queens *)

Module NQueensFacts.
Import NQueens.

Lemma Q_getitem (N i : Z) : 0 <= i < N -> (Q N).[i] = Py.Ok (qv i).
Proof. intros Hi. unfold Q. now rewrite PyFacts.getitem_map_range. Qed.

Lemma diag_pairs_ordered (N i j : Z) :
  In (i, j) (Py.for2 (Py.range N) Py.range) <-> 0 <= j < i /\ i < N.
Proof.
  rewrite PyFacts.In_for2, !PyFacts.In_range. lia.
Qed.

Lemma val_c_eq (N : Z) :
  val_c N (Q N)
  = Py.Ok (map (fun i => And (Ge (qv i) (IntVal 1)) (Le (qv i) (IntVal N)))
               (Py.range N)).
Proof.
  unfold val_c. apply PyFacts.traverse_ok. intros i Hi.
  apply PyFacts.In_range in Hi. now rewrite Q_getitem.
Qed.

Lemma col_c_eq (N : Z) : 1 <= N -> col_c (Q N) = Py.Ok [DistinctN (Q N)].
Proof.
  intros HN. unfold col_c, Distinct.
  destruct (Q N) eqn:E; [|reflexivity].
  apply (f_equal (@List.length _)) in E. unfold Q in E.
  rewrite length_map, PyFacts.length_range in E. simpl in E. lia.
Qed.

(** An empty board is refused: [Distinct] gets no argument. *)
Lemma nqueens_raises (N : Z) : N <= 0 -> nqueens N = Py.Raise Py.Z3Exception.
Proof.
  intros HN. unfold nqueens, val_c, col_c, Q, Py.range.
  replace (Z.to_nat N) with 0%nat by lia. reflexivity.
Qed.

Lemma diag_c_eq (N : Z) :
  diag_c N (Q N)
  = Py.Ok (map (fun p => guarded (fst p) (snd p))
               (Py.for2 (Py.range N) Py.range)).
Proof.
  unfold diag_c. apply PyFacts.traverse_ok. intros [i j] Hin.
  apply diag_pairs_ordered in Hin.
  rewrite !Q_getitem by lia. reflexivity.
Qed.

Lemma diag_unguarded_eq (N : Z) :
  diag_unguarded N (Q N)
  = Py.Ok (map (fun p => unguarded (fst p) (snd p))
               (Py.for2 (Py.range N) Py.range)).
Proof.
  unfold diag_unguarded. apply PyFacts.traverse_ok. intros [i j] Hin.
  apply diag_pairs_ordered in Hin.
  rewrite !Q_getitem by lia. reflexivity.
Qed.

Lemma nqueens_eq (N : Z) :
  1 <= N ->
  nqueens N
  = Py.Ok (map (fun i => And (Ge (qv i) (IntVal 1)) (Le (qv i) (IntVal N)))
               (Py.range N)
           ++ [DistinctN (Q N)]
           ++ map (fun p => guarded (fst p) (snd p))
                  (Py.for2 (Py.range N) Py.range)).
Proof.
  intros HN. unfold nqueens.
  rewrite val_c_eq, col_c_eq, diag_c_eq by assumption. reflexivity.
Qed.

(** What a model of [nqueens N] satisfies, in the code's 0-based
    column indices. *)
Lemma nqueens_model_facts (N : Z) (m : Model) (s : Solver) :
  1 <= N -> nqueens N = Py.Ok s -> models m s = true ->
  (forall i, 0 <= i < N -> 1 <= eval_a m (qv i) <= N) /\
  (forall i j, 0 <= i < N -> 0 <= j < N ->
               eval_a m (qv i) = eval_a m (qv j) -> i = j) /\
  (forall i j, 0 <= j < i -> i < N ->
               eval_a m (qv i) - eval_a m (qv j) <> i - j /\
               eval_a m (qv i) - eval_a m (qv j) <> j - i).
Proof.
  intros HN Hs Hm. rewrite nqueens_eq in Hs by assumption.
  injection Hs as <-. rewrite Z3Facts.models_app in Hm.
  rewrite andb_true_iff in Hm. destruct Hm as [Hval Hm].
  cbn [app] in Hm. apply Z3Facts.models_cons in Hm.
  destruct Hm as [Hcol Hdiag].
  rewrite Z3Facts.models_In in Hval. rewrite Z3Facts.models_In in Hdiag.
  split; [|split].
  - intros i Hi.
    specialize (Hval (And (Ge (qv i) (IntVal 1)) (Le (qv i) (IntVal N)))).
    assert (H : eval m (And (Ge (qv i) (IntVal 1)) (Le (qv i) (IntVal N)))
                = true).
    { apply Hval. apply in_map_iff. exists i. split; [reflexivity|].
      now apply PyFacts.In_range. }
    reflect_evals. lia.
  - intros i j Hi Hj Heq.
    apply Z3Facts.eval_Distinct in Hcol. unfold Q in Hcol.
    rewrite map_map in Hcol.
    apply (PyFacts.NoDup_map_injective _ _ i j Hcol);
      [now apply PyFacts.In_range | now apply PyFacts.In_range | exact Heq].
  - intros i j Hj Hi.
    assert (H : eval m (guarded i j) = true).
    { apply Hdiag. apply in_map_iff. exists (i, j). split; [reflexivity|].
      apply diag_pairs_ordered. lia. }
    unfold guarded in H. cbn [eval] in H.
    replace (i =? j) with false in H by (symmetry; apply Z.eqb_neq; lia).
    apply andb_prop in H. destruct H as [H1 H2].
    apply Z3Facts.eval_Ne in H1. apply Z3Facts.eval_Ne in H2.
    cbn [eval_a] in H1, H2. split; assumption.
Qed.

Lemma qv_value (m : Model) (k : Z) : eval_a m (qv (k - 1)) = m (Q_name k).
Proof. unfold qv. cbn [eval_a]. now replace (k - 1 + 1) with k by lia. Qed.

(** C4: for every N >= 4, [nqueens N] builds a solver, and in each of
    its models every Q_i lies in [1, N], the values Q_1 .. Q_N are
    pairwise distinct, and |Q_i - Q_j| differs from j - i for all
    columns i < j. *)
Theorem nqueens_models_are_solutions (N : Z) :
  4 <= N ->
  exists s, nqueens N = Py.Ok s /\
            forall m, models m s = true -> is_solution N m.
Proof.
  intros HN. assert (H1 : 1 <= N) by lia.
  eexists. split; [apply nqueens_eq; exact H1|].
  intros m Hm.
  destruct (nqueens_model_facts N m _ H1 (nqueens_eq N H1) Hm)
    as (Hval & Hcol & Hdiag).
  split; [|split].
  - intros i Hi. rewrite <- qv_value. apply Hval. lia.
  - intros i j Hi Hj Hij Heq. rewrite <- !qv_value in Heq.
    apply Hcol in Heq; lia.
  - intros i j Hi Hj. rewrite <- !qv_value.
    destruct (Hdiag (j - 1) (i - 1)) as [Ha Hb]; lia.
Qed.

Lemma nqueens_models_are_solutions_witness :
  4 <= 4 /\
  exists s, nqueens 4 = Py.Ok s /\
            models (model_of [2; 4; 1; 3]) s = true /\
            is_solution 4 (model_of [2; 4; 1; 3]).
Proof.
  split; [lia|].
  destruct (nqueens_models_are_solutions 4 ltac:(lia)) as [s [Hs H]].
  exists s. split; [exact Hs|].
  assert (Hm : models (model_of [2; 4; 1; 3]) s = true).
  { vm_compute in Hs. injection Hs as <-. reflexivity. }
  split; [exact Hm | exact (H _ Hm)].
Defined.

(** C9: for every N the index pairs of [diag_c] have j < i, so the
    Python condition [i == j] is false at every pair and each
    conditional takes its else branch; the guarded list is, entry by
    entry, [If(False, True, c)] for the entry [c] of the unguarded
    list over the same pairs, and the two lists have the same truth
    value in every model. *)
Theorem diag_guard_is_vacuous (N : Z) :
  (forall i j, In (i, j) (Py.for2 (Py.range N) Py.range) ->
               0 <= j < i /\ (i =? j) = false) /\
  exists g u,
    diag_c N (Q N) = Py.Ok g /\ diag_unguarded N (Q N) = Py.Ok u /\
    Forall2 (fun cg cu => cg = If (BoolVal false) (BoolVal true) cu) g u /\
    (forall m, map (eval m) g = map (eval m) u) /\
    (forall m, models m g = models m u).
Proof.
  assert (Hpairs : forall i j, In (i, j) (Py.for2 (Py.range N) Py.range) ->
                               0 <= j < i /\ (i =? j) = false).
  { intros i j Hin. apply diag_pairs_ordered in Hin.
    split; [lia | apply Z.eqb_neq; lia]. }
  split; [exact Hpairs|].
  eexists. eexists.
  split; [apply diag_c_eq|]. split; [apply diag_unguarded_eq|].
  generalize dependent (Py.for2 (Py.range N) Py.range).
  intros l Hl.
  assert (HF : Forall2
                 (fun cg cu => cg = If (BoolVal false) (BoolVal true) cu)
                 (map (fun p => guarded (fst p) (snd p)) l)
                 (map (fun p => unguarded (fst p) (snd p)) l)).
  { induction l as [|[i j] r IH]; simpl; constructor.
    - unfold guarded. destruct (Hl i j (or_introl eq_refl)) as [_ ->].
      reflexivity.
    - apply IH. intros i' j' Hin. apply Hl. now right. }
  assert (HE : forall m,
             map (eval m) (map (fun p => guarded (fst p) (snd p)) l)
             = map (eval m) (map (fun p => unguarded (fst p) (snd p)) l)).
  { intros m. clear Hl.
    induction HF as [|cg cu g u Hc _ IH]; simpl; [reflexivity|].
    rewrite IH, Hc. reflexivity. }
  split; [exact HF|]. split; [exact HE|].
  intros m. rewrite !Z3Facts.models_truth_values. now rewrite HE.
Qed.

(** The smallest boards: [nqueens] builds an instance for N = 2 and
    N = 3 that no assignment satisfies. *)
Lemma nqueens_2_unsat (s : Solver) (m : Model) :
  nqueens 2 = Py.Ok s -> models m s = false.
Proof.
  intros Hs. vm_compute in Hs. injection Hs as <-.
  destruct (models m _) eqn:Hm; [exfalso|reflexivity].
  split_models Hm. reflect_evals. lia.
Qed.

End NQueensFacts.

(** ** IV. Sudoku *)

Module SudokuFacts.
Import Sudoku.

(** Nine distinct values between 1 and 9 are the digits 1..9, each
    once. *)
Lemma nine_distinct_complete (l : list Z) :
  List.length l = 9%nat -> NoDup l -> Forall (fun v => 1 <= v <= 9) l ->
  complete l.
Proof.
  intros Hlen Hnd Hrange d Hd.
  assert (Hincl : incl l (map Z.of_nat (seq 1 9))).
  { intros v Hv. rewrite Forall_forall in Hrange.
    specialize (Hrange v Hv). apply in_map_iff.
    exists (Z.to_nat v). split; [lia|]. apply in_seq. lia. }
  assert (Hback : incl (map Z.of_nat (seq 1 9)) l).
  { apply NoDup_length_incl; [assumption | | assumption].
    rewrite length_map, length_seq. lia. }
  assert (Hin : In d l).
  { apply Hback. apply in_map_iff. exists (Z.to_nat d).
    split; [lia|]. apply in_seq. lia. }
  apply (NoDup_count_occ' Z.eq_dec) in Hin; assumption.
Qed.

Lemma s_solver_runs :
  exists s, s_solver = Py.Ok s /\ List.length s = 189%nat.
Proof. eexists. split; reflexivity. Qed.

(** C5: for the notebook's board, the grid read from any model of
    the sudoku instance has every nonzero given in its place, and in
    each row, each column and each 3x3 block every digit 1..9 occurs
    exactly once. *)
Theorem s_models_are_solved (s : Solver) (m : Model) :
  s_solver = Py.Ok s -> models m s = true ->
  keeps_givens board (decode m) /\ is_solved (decode m).
Proof.
  intros Hs Hm. vm_compute in Hs. injection Hs as <-.
  split_models Hm. reflect_evals.
  repeat match goal with
         | H : eval _ (DistinctN _) = true |- _ =>
             apply Z3Facts.eval_Distinct in H; cbn [map eval_a] in H
         | H : eval _ (If (BoolVal true) _ _) = true |- _ => clear H
         end.
  let g := eval vm_compute in (decode m) in change (decode m) with g.
  split; [|split; [|split]].
  - intros i j Hi Hj.
    do 9 (destruct i as [|i];
          [do 9 (destruct j as [|j];
                 [cbn; intros Hz;
                  first [ assumption | exfalso; apply Hz; reflexivity ]|]);
           exfalso; lia|]).
    exfalso; lia.
  - intros i Hi.
    do 9 (destruct i as [|i];
          [apply nine_distinct_complete;
           [reflexivity | assumption
            | repeat constructor; assumption]|]).
    exfalso; lia.
  - intros j Hj.
    do 9 (destruct j as [|j];
          [apply nine_distinct_complete;
           [reflexivity | assumption
            | repeat constructor; assumption]|]).
    exfalso; lia.
  - intros i0 j0 Hi Hj.
    do 3 (destruct i0 as [|i0];
          [do 3 (destruct j0 as [|j0];
                 [apply nine_distinct_complete;
                  [reflexivity | assumption
                   | repeat constructor; assumption]|]);
           exfalso; lia|]).
    exfalso; lia.
Qed.

Lemma s_models_are_solved_witness :
  exists s, s_solver = Py.Ok s /\
            models (model_of printed_grid) s = true /\
            keeps_givens board (decode (model_of printed_grid)) /\
            is_solved (decode (model_of printed_grid)).
Proof.
  eexists. split; [reflexivity|]. split; [vm_compute; reflexivity|].
  eapply s_models_are_solved; [reflexivity | vm_compute; reflexivity].
Defined.

(** For any board and any list of cells, the conditional form and
    the omitting form raise together or build lists with the same
    models. *)
Lemma conditional_fixing_agree (b : list (list Z)) (l : list (Z * Z)) :
  match Py.traverse (conditional b) l, Py.traverse (fixing b) l with
  | Py.Ok c, Py.Ok cs => forall m, models m c = models m (List.concat cs)
  | Py.Raise e, Py.Raise e' => e = e'
  | _, _ => False
  end.
Proof.
  induction l as [|[i j] r IH]; cbn [Py.traverse].
  - reflexivity.
  - change (conditional b (i, j))
      with (g <- b.[i, j] ;; x <- boxes.[i, j] ;;
            Py.Ok (If (BoolVal (g =? 0)) (BoolVal true) (Eq x (IntVal g)))).
    change (fixing b (i, j))
      with (g <- b.[i, j] ;; x <- boxes.[i, j] ;;
            Py.Ok (if g =? 0 then [] else [Eq x (IntVal g)])).
    destruct (b.[i, j]) as [g|e]; cbn [Py.bind]; [|reflexivity].
    destruct (boxes.[i, j]) as [x|e]; cbn [Py.bind]; [|reflexivity].
    destruct (Py.traverse (conditional b) r) as [c|e1],
             (Py.traverse (fixing b) r) as [cs|e2];
      cbn [Py.bind]; try assumption.
    intros m. cbn [List.concat]. rewrite Z3Facts.models_app.
    unfold models at 1. cbn [forallb eval].
    fold (models m c). rewrite IH.
    destruct (g =? 0); cbn [models forallb eval]; [reflexivity|].
    now rewrite andb_true_r.
Qed.

(** C7: the sudoku instance built with one conditional per cell and
    the instance that adds an equation only for the cells with a
    nonzero given are both built without an exception and have the
    same models. *)
Theorem conditional_form_same_models :
  exists s s', s_solver = Py.Ok s /\ s_solver_omit = Py.Ok s' /\
               forall m, models m s = models m s'.
Proof.
  pose proof (conditional_fixing_agree board all_cells) as H.
  unfold s_solver, s_solver_omit, given_c, given_omit.
  destruct general as [G|e] eqn:EG; [|vm_compute in EG; discriminate EG].
  destruct (Py.traverse (conditional board) all_cells) as [c|e1] eqn:E1;
    [|vm_compute in E1; discriminate E1].
  destruct (Py.traverse (fixing board) all_cells) as [cs|e2] eqn:E2;
    [|contradiction].
  cbn [Py.bind]. exists (add G c), (add G (List.concat cs)).
  split; [reflexivity|]. split; [reflexivity|].
  intros m. unfold add. now rewrite !Z3Facts.models_app, H.
Qed.

(** The omitting form has 32 equations where the conditional form
    has 81 conditionals. *)
Lemma given_sizes :
  exists c c', given_c board = Py.Ok c /\ given_omit board = Py.Ok c' /\
               List.length c = 81%nat /\ List.length c' = 32%nat.
Proof. do 2 eexists. repeat split; reflexivity. Qed.

End SudokuFacts.

(** ** The guards in front of the decoding steps *)

Module GuardFacts.

Lemma eq_sat_guard (r : CheckSatResult) :
  CheckSatResult_eq r sat = true <-> r = sat.
Proof. destruct r; simpl; split; congruence. Qed.

(** The three cells that compare the verdict with [sat] read the
    model only after a [sat] verdict. *)
Lemma compared_guards_gate (r : CheckSatResult) (model : Py.result Model) :
  r <> sat ->
  (exists msg, Crypt.decode_cell r model = Py.Raise (Py.AssertionError msg)) /\
  (exists msg,
      MapColoring.decode_cell r model = Py.Raise (Py.AssertionError msg)) /\
  (exists msg, Sudoku.decode_cell r model = Py.Raise (Py.AssertionError msg)).
Proof.
  intros Hr.
  unfold Crypt.decode_cell, MapColoring.decode_cell, Sudoku.decode_cell,
    Crypt.guard, MapColoring.guard, Sudoku.guard, Py.assert_.
  destruct r; [congruence| |]; cbn [CheckSatResult_eq];
    repeat split; eexists; reflexivity.
Qed.

(** C6 asks that every flow's guard fail for a verdict other than
    sat.  The cryptarithmetic, map-colouring and sudoku cells compare
    the verdict with [sat]; the N-queens loop asserts the verdict
    object itself, which is true whatever the verdict, so its guard
    passes for unsat and unknown and the round goes on to record the
    solver among the solutions: the timing loop completes all four
    rounds whatever verdicts the solver returns. *)
Theorem nq_guard_passes_any_verdict :
  NQueens.guard unsat = true /\ NQueens.guard unknown = true /\
  (forall nq_solver solutions,
      NQueens.loop_body unsat nq_solver solutions
      = Py.Ok (solutions ++ [nq_solver])) /\
  (forall check, exists solutions,
      NQueens.timing_loop check = Py.Ok solutions /\
      List.length solutions = 4%nat) /\
  Crypt.guard unsat = false /\ MapColoring.guard unsat = false /\
  Sudoku.guard unsat = false /\
  Crypt.guard unknown = false /\ MapColoring.guard unknown = false /\
  Sudoku.guard unknown = false.
Proof.
  split; [reflexivity|]. split; [reflexivity|]. split; [reflexivity|].
  split; [|repeat split; reflexivity].
  intros check. unfold NQueens.timing_loop, NQueens.sizes.
  cbn [fold_left Py.bind].
  rewrite !NQueensFacts.nqueens_eq by lia.
  unfold NQueens.loop_body, NQueens.guard, CheckSatResult_bool, Py.assert_.
  cbn [Py.bind]. eexists. split; reflexivity.
Qed.

End GuardFacts.


(** * Further properties of the encodings *)

(** ** More on Python lists, strings and comprehensions *)

Module PyExtra.

Lemma NoDup_map_on {A B} (f : A -> B) (l : list A) :
  NoDup l -> (forall x y, In x l -> In y l -> f x = f y -> x = y) ->
  NoDup (map f l).
Proof.
  induction l as [|a r IH]; simpl; intros Hnd Hinj.
  - constructor.
  - inversion Hnd as [|? ? Hnotin Hnd']; subst. constructor.
    + intros Hin. apply in_map_iff in Hin. destruct Hin as [b [Heq Hb]].
      assert (b = a) by (apply Hinj; auto).
      subst b. contradiction.
    + apply IH; [assumption|]. intros x y Hx Hy. apply Hinj; now right.
Qed.

Lemma NoDup_range (n : Z) : NoDup (Py.range n).
Proof.
  unfold Py.range. apply NoDup_map_on; [apply seq_NoDup|].
  intros x y _ _. apply Nat2Z.inj.
Qed.

(** Signed decimal rendering is injective. *)
Lemma format_i_inj (a b : Z) : Py.format_i a = Py.format_i b -> a = b.
Proof.
  unfold Py.format_i. intros H. apply DecimalZ.to_int_inj.
  assert (Hnil : forall z, Z.to_int z <> Decimal.Pos Decimal.Nil /\
                           Z.to_int z <> Decimal.Neg Decimal.Nil).
  { intros [|p|p]; simpl; split; try discriminate;
      intros [= Hp]; now apply DecimalPos.Unsigned.to_uint_nonnil in Hp. }
  apply (f_equal NilZero.int_of_string) in H.
  rewrite !NilZero.isi in H by apply Hnil.
  now injection H.
Qed.

(** A comprehension returns a list exactly when its body returns at
    every element. *)
Lemma traverse_Ok_iff {A B} (f : A -> Py.result B) (l : list A)
  (ys : list B) :
  Py.traverse f l = Py.Ok ys <-> Forall2 (fun x y => f x = Py.Ok y) l ys.
Proof.
  revert ys. induction l as [|x r IH]; intros ys; cbn [Py.traverse].
  - split.
    + intros [= <-]. constructor.
    + intros H. inversion H. reflexivity.
  - destruct (f x) as [y|e] eqn:Ex; cbn [Py.bind].
    + destruct (Py.traverse f r) as [ys'|e] eqn:Er; cbn [Py.bind].
      * split.
        -- intros [= <-]. constructor; [assumption|]. now apply IH.
        -- intros H. inversion H as [|? y' ? ys'' Hy Hr]; subst.
           apply IH in Hr. congruence.
      * split; [discriminate|].
        intros H. inversion H as [|? y' ? ys'' Hy Hr]; subst.
        apply IH in Hr. discriminate.
    + split; [discriminate|].
      intros H. inversion H; subst. congruence.
Qed.

(** It raises [e] when the body raises at some element and [e] is the
    only exception the body can raise on the list. *)
Lemma traverse_raises {A B} (f : A -> Py.result B) (l : list A)
  (e : Py.exn) :
  (forall x e', In x l -> f x = Py.Raise e' -> e' = e) ->
  (exists x, In x l /\ f x = Py.Raise e) ->
  Py.traverse f l = Py.Raise e.
Proof.
  induction l as [|x r IH]; intros Hall [x0 [Hin Hx0]].
  - contradiction.
  - cbn [Py.traverse]. destruct (f x) as [y|e'] eqn:Ex; cbn [Py.bind].
    + destruct Hin as [->|Hin]; [congruence|].
      rewrite IH; [reflexivity | | ].
      * intros z e'' Hz. apply Hall. now right.
      * exists x0. now split.
    + f_equal. apply (Hall x); [now left | assumption].
Qed.

(** Indexing with a non-negative index. *)
Lemma getitem_nth {A} (d : A) (l : list A) (i : Z) :
  0 <= i -> (Z.to_nat i < List.length l)%nat ->
  l.[i] = Py.Ok (nth (Z.to_nat i) l d).
Proof.
  intros Hi Hlen. unfold Py.getitem.
  replace (i <? 0) with false by (symmetry; apply Z.ltb_ge; lia).
  replace (i <? 0) with false by (symmetry; apply Z.ltb_ge; lia).
  now rewrite (nth_error_nth' l d Hlen).
Qed.

Lemma getitem_past_end {A} (l : list A) (i : Z) :
  0 <= i -> (List.length l <= Z.to_nat i)%nat ->
  l.[i] = Py.Raise Py.IndexError.
Proof.
  intros Hi Hlen. unfold Py.getitem.
  replace (i <? 0) with false by (symmetry; apply Z.ltb_ge; lia).
  replace (i <? 0) with false by (symmetry; apply Z.ltb_ge; lia).
  apply nth_error_None in Hlen. now rewrite Hlen.
Qed.

(** [IndexError] is the only exception indexing raises. *)
Lemma getitem_raises {A} (l : list A) (i : Z) (e : Py.exn) :
  l.[i] = Py.Raise e -> e = Py.IndexError.
Proof.
  unfold Py.getitem.
  destruct (_ <? 0); [now intros [= <-]|].
  destruct (nth_error _ _); [discriminate | now intros [= <-]].
Qed.

Lemma getitem2_raises {A} (l : list (list A)) (i j : Z) (e : Py.exn) :
  l.[i, j] = Py.Raise e -> e = Py.IndexError.
Proof.
  unfold Py.getitem2. destruct (l.[i]) as [r|e'] eqn:E; cbn [Py.bind].
  - apply getitem_raises.
  - intros [= <-]. now apply getitem_raises in E.
Qed.

End PyExtra.

(** ** N-queens: the instance as a whole *)

Module NQueensEncoding.
Import NQueens.

(** X1: for every N >= 1 the assertions of [nqueens N] say exactly
    that Q_1 .. Q_N is a solution of the puzzle: an assignment is a
    model if and only if every Q_i lies in 1..N, the values are
    pairwise distinct and no two queens share a diagonal. *)
Theorem nqueens_models_iff (N : Z) :
  1 <= N ->
  exists s, nqueens N = Py.Ok s /\
            forall m, models m s = true <-> is_solution N m.
Proof.
  intros HN. eexists. split; [apply NQueensFacts.nqueens_eq; exact HN|].
  intros m. split.
  - intros Hm.
    destruct (NQueensFacts.nqueens_model_facts N m _ HN
                (NQueensFacts.nqueens_eq N HN) Hm) as (Hval & Hcol & Hdiag).
    split; [|split].
    + intros i Hi. rewrite <- NQueensFacts.qv_value. apply Hval. lia.
    + intros i j Hi Hj Hij Heq. rewrite <- !NQueensFacts.qv_value in Heq.
      apply Hcol in Heq; lia.
    + intros i j Hi Hj. rewrite <- !NQueensFacts.qv_value.
      destruct (Hdiag (j - 1) (i - 1)) as [Ha Hb]; lia.
  - intros (Hval & Hcol & Hdiag).
    rewrite Z3Facts.models_app. apply andb_true_iff. split.
    + apply Z3Facts.models_In. intros c Hc. apply in_map_iff in Hc.
      destruct Hc as [i [<- Hi]]. apply PyFacts.In_range in Hi.
      apply Z3Facts.eval_And. split.
      * apply Z3Facts.eval_Ge. cbn [eval_a qv]. apply (Hval (i + 1)). lia.
      * apply Z3Facts.eval_Le. cbn [eval_a qv]. apply (Hval (i + 1)). lia.
    + cbn [app]. apply Z3Facts.models_cons. split.
      * apply Z3Facts.eval_Distinct. unfold Q. rewrite map_map.
        apply PyExtra.NoDup_map_on; [apply PyExtra.NoDup_range|].
        intros i j Hi Hj Heq. apply PyFacts.In_range in Hi, Hj.
        cbn [eval_a qv] in Heq.
        destruct (Z.eq_dec i j) as [|Hne]; [assumption|].
        exfalso. apply (Hcol (i + 1) (j + 1)); lia.
      * apply Z3Facts.models_In. intros c Hc. apply in_map_iff in Hc.
        destruct Hc as [[i j] [<- Hin]].
        apply NQueensFacts.diag_pairs_ordered in Hin. cbn [fst snd].
        unfold guarded. cbn [eval].
        replace (i =? j) with false by (symmetry; apply Z.eqb_neq; lia).
        unfold unguarded. apply Z3Facts.eval_And.
        specialize (Hdiag (j + 1) (i + 1)).
        split; apply Z3Facts.eval_Ne; cbn [eval_a qv]; lia.
Qed.

Lemma nqueens_models_iff_witness :
  1 <= 4 /\
  exists s, nqueens 4 = Py.Ok s /\
            (models (model_of [2; 4; 1; 3]) s = true
             <-> is_solution 4 (model_of [2; 4; 1; 3])).
Proof.
  split; [lia|].
  destruct (nqueens_models_iff 4 ltac:(lia)) as [s [Hs H]].
  exists s. split; [exact Hs | exact (H _)].
Defined.

Lemma length_diag_pairs (n : nat) :
  (2 * List.length (Py.for2 (map Z.of_nat (seq 0 n)) Py.range)
   = n * (n - 1))%nat.
Proof.
  induction n as [|n IH]; [reflexivity|].
  rewrite seq_S, map_app. unfold Py.for2 in *. rewrite flat_map_app.
  rewrite length_app. cbn [map flat_map Nat.add].
  rewrite app_nil_r, length_map, PyFacts.length_range, Nat2Z.id. nia.
Qed.

(** X2: for every N >= 1 the solver built by [nqueens N] holds
    N range assertions, one all-distinct assertion and one diagonal
    assertion per pair of columns, N + 1 + N (N - 1) / 2 in all. *)
Theorem nqueens_size (N : Z) :
  1 <= N ->
  exists s, nqueens N = Py.Ok s /\
            2 * Z.of_nat (List.length s) = 2 * N + 2 + N * (N - 1).
Proof.
  intros HN. eexists. split; [apply NQueensFacts.nqueens_eq; exact HN|].
  rewrite !length_app, !length_map, PyFacts.length_range.
  cbn [List.length].
  pose proof (length_diag_pairs (Z.to_nat N)) as H.
  unfold Py.range at 1. nia.
Qed.

Lemma nqueens_size_witness :
  1 <= 8 /\
  exists s, nqueens 8 = Py.Ok s /\
            2 * Z.of_nat (List.length s) = 2 * 8 + 2 + 8 * (8 - 1).
Proof.
  split; [lia|]. exact (nqueens_size 8 ltac:(lia)).
Defined.

(** X3: the names ['Q_%i' % k] are different for different k, so the
    N entries of [Q] are N different Z3 constants and [Distinct(Q)]
    relates N independent unknowns. *)
Theorem Q_names_distinct (N : Z) :
  (forall i j, Q_name i = Q_name j -> i = j) /\
  NoDup (Q N) /\ List.length (Q N) = Z.to_nat N.
Proof.
  assert (Hinj : forall i j, Q_name i = Q_name j -> i = j).
  { intros i j H. unfold Q_name in H. cbn [String.append] in H.
    injection H as H. now apply PyExtra.format_i_inj. }
  split; [exact Hinj|]. split.
  - unfold Q. apply PyExtra.NoDup_map_on; [apply PyExtra.NoDup_range|].
    intros i j _ _ H. unfold qv in H. injection H as H.
    apply PyExtra.format_i_inj in H. lia.
  - unfold Q. now rewrite length_map, PyFacts.length_range.
Qed.

(** X4: the smallest boards.  [nqueens 1] has the single placement
    Q_1 = 1 as its models; [nqueens 2] and [nqueens 3] build
    instances that no assignment satisfies. *)
Theorem nqueens_small_boards :
  (exists s, nqueens 1 = Py.Ok s /\
             forall m, models m s = true <-> m "Q_1" = 1) /\
  (exists s, nqueens 2 = Py.Ok s /\ forall m, models m s = false) /\
  (exists s, nqueens 3 = Py.Ok s /\ forall m, models m s = false).
Proof.
  split; [|split].
  - eexists. split; [vm_compute; reflexivity|]. intros m.
    split.
    + intros Hm. split_models Hm. reflect_evals. lia.
    + intros H. unfold models. cbn. rewrite H. reflexivity.
  - eexists. split; [vm_compute; reflexivity|]. intros m.
    destruct (models m _) eqn:Hm; [exfalso|reflexivity].
    split_models Hm. reflect_evals. lia.
  - eexists. split; [vm_compute; reflexivity|]. intros m.
    destruct (models m _) eqn:Hm; [exfalso|reflexivity].
    split_models Hm.
    match goal with
    | H : eval _ (DistinctN [_; _; _]) = true |- _ =>
        apply Z3Facts.eval_Distinct in H; cbn [map eval_a] in H;
        rewrite !NoDup_cons_iff in H; cbn [In] in H
    end.
    reflect_evals. lia.
Qed.

(** X13: each of the four instances the timing loop builds, for
    N = 8, 16, 32 and 64, has a model: the staircase placement. *)
Theorem timing_sizes_satisfiable :
  Forall (fun N => exists s m, nqueens N = Py.Ok s /\ models m s = true)
         sizes.
Proof.
  unfold sizes.
  repeat constructor;
    match goal with
    | |- exists s m, nqueens ?N = _ /\ _ =>
        eexists; exists (model_of (NQueensPlacements.staircase N))
    end;
    (split; [reflexivity|]); vm_compute; reflexivity.
Qed.

End NQueensEncoding.

(** ** Cryptarithmetic: carries, the single equation and the printout *)

Module CryptEncoding.
Import Crypt CryptVariants.

Lemma ca_model_intro (s : Solver) (m : Model) :
  ca_solver = Py.Ok s ->
  (0 <= m "F" <= 9 /\ 0 <= m "O" <= 9 /\ 0 <= m "R" <= 9 /\
   0 <= m "T" <= 9 /\ 0 <= m "U" <= 9 /\ 0 <= m "W" <= 9) ->
  (m "T" <> 0 /\ m "F" <> 0) ->
  (m "T" <> m "W" /\ m "W" <> m "O" /\ m "F" <> m "O" /\
   m "O" <> m "U" /\ m "U" <> m "R") ->
  (m "O" * 1 + m "O" * 1 = m "R" + m "carry_1" * 10 /\
   m "carry_1" * 10 + m "W" * 10 + m "W" * 10
     = m "U" * 10 + m "carry_2" * 100 /\
   m "carry_2" * 100 + (m "T" + m "T") * 100
     = m "O" * 100 + m "carry_3" * 1000 /\
   m "carry_3" = m "F") ->
  models m s = true.
Proof.
  intros Hs Hr Hl Hd Hc. vm_compute in Hs. injection Hs as <-.
  repeat (apply Z3Facts.models_cons; split);
    try reflexivity;
    first [ apply Z3Facts.eval_Ge | apply Z3Facts.eval_Le
          | apply Z3Facts.eval_Ne | apply Z3Facts.eval_Eq ];
    cbn [eval_a]; intuition.
Qed.

Lemma single_model_facts (s1 : Solver) (m : Model) :
  ca_solver_single = Py.Ok s1 -> models m s1 = true ->
  (0 <= m "F" <= 9 /\ 0 <= m "O" <= 9 /\ 0 <= m "R" <= 9 /\
   0 <= m "T" <= 9 /\ 0 <= m "U" <= 9 /\ 0 <= m "W" <= 9) /\
  (m "T" <> 0 /\ m "F" <> 0) /\
  (m "T" <> m "W" /\ m "W" <> m "O" /\ m "F" <> m "O" /\
   m "O" <> m "U" /\ m "U" <> m "R") /\
  2 * (100 * m "T" + 10 * m "W" + m "O")
    = 1000 * m "F" + 100 * m "O" + 10 * m "U" + m "R".
Proof.
  intros Hs Hm. vm_compute in Hs. injection Hs as <-.
  split_models Hm. reflect_evals. repeat split; try assumption. lia.
Qed.

Lemma single_model_intro (s1 : Solver) (m : Model) :
  ca_solver_single = Py.Ok s1 ->
  (0 <= m "F" <= 9 /\ 0 <= m "O" <= 9 /\ 0 <= m "R" <= 9 /\
   0 <= m "T" <= 9 /\ 0 <= m "U" <= 9 /\ 0 <= m "W" <= 9) ->
  (m "T" <> 0 /\ m "F" <> 0) ->
  (m "T" <> m "W" /\ m "W" <> m "O" /\ m "F" <> m "O" /\
   m "O" <> m "U" /\ m "U" <> m "R") ->
  2 * (100 * m "T" + 10 * m "W" + m "O")
    = 1000 * m "F" + 100 * m "O" + 10 * m "U" + m "R" ->
  models m s1 = true.
Proof.
  intros Hs Hr Hl Hd He. vm_compute in Hs. injection Hs as <-.
  repeat (apply Z3Facts.models_cons; split);
    try reflexivity;
    first [ apply Z3Facts.eval_Ge | apply Z3Facts.eval_Le
          | apply Z3Facts.eval_Ne | apply Z3Facts.eval_Eq ];
    cbn [eval_a]; try (intuition; fail). lia.
Qed.

(** X5: the carry chain and the single large constraint admit the
    same letter assignments.  Every model of the carry-chain instance
    is a model of the single-equation instance, and every model of the
    single-equation instance becomes a model of the carry-chain
    instance by choosing the three carries, the six letters
    unchanged. *)
Theorem carry_chain_matches_single_equation :
  exists s s1,
    ca_solver = Py.Ok s /\ ca_solver_single = Py.Ok s1 /\
    (forall m, models m s = true -> models m s1 = true) /\
    (forall m, models m s1 = true ->
       exists m', models m' s = true /\
                  forall x, In x ["F"; "O"; "R"; "T"; "U"; "W"] ->
                            m' x = m x).
Proof.
  destruct CryptFacts.ca_solver_runs as [s [Hs _]].
  assert (Hs1 : exists s1, ca_solver_single = Py.Ok s1)
    by (eexists; reflexivity).
  destruct Hs1 as [s1 Hs1].
  exists s, s1. split; [exact Hs|]. split; [exact Hs1|]. split.
  - intros m Hm.
    destruct (CryptFacts.ca_model_facts s m Hs Hm) as (Hr & Hl & Hd & Hc).
    apply single_model_intro; try assumption. lia.
  - intros m Hm.
    destruct (single_model_facts s1 m Hs1 Hm) as (Hr & Hl & Hd & He).
    set (c1 := (2 * m "O" - m "R") / 10).
    set (c2 := (c1 + 2 * m "W" - m "U") / 10).
    assert (H1 : 10 * c1 = 2 * m "O" - m "R")
      by (unfold c1; Z.div_mod_to_equations; lia).
    assert (H2 : 10 * c2 = c1 + 2 * m "W" - m "U")
      by (unfold c2; Z.div_mod_to_equations; lia).
    exists (update (update (update m "carry_1" c1) "carry_2" c2)
                   "carry_3" (m "F")).
    split.
    + apply ca_model_intro; try assumption; unfold update; cbn; lia.
    + intros x Hx. cbn [In] in Hx.
      repeat (destruct Hx as [<-|Hx]; [reflexivity|]). contradiction.
Qed.

Lemma number3 (a b c : Z) : number [a; b; c] = 100 * a + 10 * b + c.
Proof. unfold number. cbn [fold_left]. lia. Qed.

Lemma number4 (a b c d : Z) :
  number [a; b; c; d] = 1000 * a + 100 * b + 10 * c + d.
Proof. unfold number. cbn [fold_left]. lia. Qed.

(** X6: after a sat verdict, the decoding cell run on any model of the
    instance raises nothing and reads three rows of single digits,
    the first two equal, whose numbers add up: TWO + TWO = FOUR with
    TWO a three-digit and FOUR a four-digit number starting with 1. *)
Theorem ca_decode_cell_adds_up (s : Solver) (m : Model) :
  ca_solver = Py.Ok s -> models m s = true ->
  exists two four,
    decode_cell sat (Py.Ok m) = Py.Ok [two; two; four] /\
    List.length two = 3%nat /\ List.length four = 4%nat /\
    Forall (fun d => 0 <= d <= 9) (two ++ four) /\
    number two + number two = number four /\
    100 <= number two <= 999 /\ 1000 <= number four <= 1998 /\
    nth 0 four 0 = 1.
Proof.
  intros Hs Hm.
  destruct (CryptFacts.ca_model_facts s m Hs Hm) as (Hr & Hl & Hd & Hc).
  exists [m "T"; m "W"; m "O"], [m "F"; m "O"; m "U"; m "R"].
  split; [reflexivity|]. split; [reflexivity|]. split; [reflexivity|].
  split; [cbn [app]; repeat constructor; lia|].
  rewrite number3, number4. cbn [nth]. lia.
Qed.

Lemma ca_decode_cell_adds_up_witness :
  exists s two four,
    ca_solver = Py.Ok s /\ models printed_model s = true /\
    decode_cell sat (Py.Ok printed_model) = Py.Ok [two; two; four] /\
    number two + number two = number four.
Proof.
  eexists.
  destruct (ca_decode_cell_adds_up _ printed_model eq_refl eq_refl)
    as (two & four & H1 & _ & _ & _ & H5 & _).
  exists two, four. split; [reflexivity|]. split; [reflexivity|].
  split; assumption.
Defined.

End CryptEncoding.

(** ** Map colouring: the palette lookup *)

Module MapDecoding.
Import MapColoring MapPalette.

Lemma color_name_in_range (m : Model) (x : ArithRef) :
  0 <= eval_a m x <= 2 -> color_name m x = Py.Ok (name_of (eval_a m x)).
Proof.
  intros H. unfold color_name.
  assert (Hv : eval_a m x = 0 \/ eval_a m x = 1 \/ eval_a m x = 2) by lia.
  destruct Hv as [-> | [-> | ->]]; reflexivity.
Qed.

Lemma color_name_out_of_range (m : Model) (x : ArithRef) :
  ~ 0 <= eval_a m x <= 2 -> color_name m x = Py.Raise Py.KeyError.
Proof.
  intros H. unfold color_name, colors. cbn [Py.dict_get].
  assert (Hne : forall k, 0 <= k <= 2 ->
                  String.eqb (Py.format_i (eval_a m x)) (Py.format_i k)
                  = false).
  { intros k Hk. apply String.eqb_neq. intros Heq.
    apply PyExtra.format_i_inj in Heq. lia. }
  change "0" with (Py.format_i 0). change "1" with (Py.format_i 1).
  change "2" with (Py.format_i 2).
  rewrite !Hne by lia. reflexivity.
Qed.

Lemma name_of_inj (u v : Z) :
  0 <= u <= 2 -> 0 <= v <= 2 -> name_of u = name_of v -> u = v.
Proof.
  intros Hu Hv.
  assert (Hu' : u = 0 \/ u = 1 \/ u = 2) by lia.
  assert (Hv' : v = 0 \/ v = 1 \/ v = 2) by lia.
  destruct Hu' as [-> | [-> | ->]], Hv' as [-> | [-> | ->]];
    cbn; intros H; first [reflexivity | discriminate H].
Qed.

Lemma decode_in_range (m : Model) :
  Forall (fun x => 0 <= eval_a m x <= 2) regions ->
  decode m = Py.Ok (map (fun x => name_of (eval_a m x)) regions).
Proof.
  intros H. unfold decode. apply PyFacts.traverse_ok.
  intros x Hx. rewrite Forall_forall in H.
  apply (color_name_in_range m x). now apply H.
Qed.

(** X7: the decoding cell on an arbitrary assignment.  If every region
    has a colour index 0, 1 or 2 the cell returns the seven names of
    the palette; if some region has any other value the lookup in
    [colors] raises [KeyError]. *)
Theorem mc_decode_total_or_KeyError (m : Model) :
  (Forall (fun x => 0 <= eval_a m x <= 2) regions ->
   decode m = Py.Ok (map (fun x => name_of (eval_a m x)) regions)) /\
  (Exists (fun x => ~ 0 <= eval_a m x <= 2) regions ->
   decode m = Py.Raise Py.KeyError).
Proof.
  split.
  - apply decode_in_range.
  - intros H. unfold decode. apply Exists_exists in H.
    destruct H as [x [Hx Hout]].
    change (Py.traverse (color_name m) regions = Py.Raise Py.KeyError).
    apply PyExtra.traverse_raises.
    + intros y e' _ Hy.
      destruct (Z_le_dec 0 (eval_a m y)) as [H0|H0];
        [destruct (Z_le_dec (eval_a m y) 2) as [H2|H2]|].
      * rewrite color_name_in_range in Hy by lia. discriminate Hy.
      * rewrite color_name_out_of_range in Hy by lia. congruence.
      * rewrite color_name_out_of_range in Hy by lia. congruence.
    + exists x. split; [assumption|]. now apply color_name_out_of_range.
Qed.

(** X8: after a sat verdict the decoding cell run on a model of the
    instance never raises: it prints seven names of the palette, and
    the two regions of every border the adjacency cell asserts get
    different names. *)
Theorem mc_decode_cell_on_models (m : Model) :
  models m mc_solver = true ->
  exists names,
    decode_cell sat (Py.Ok m) = Py.Ok names /\
    List.length names = 7%nat /\
    Forall (fun n => In n ["Blue"; "Red"; "Green"]) names /\
    forall u v, In (u, v) asserted_borders ->
      exists nu nv, color_name m u = Py.Ok nu /\
                    color_name m v = Py.Ok nv /\ nu <> nv.
Proof.
  intros Hm. destruct (MapColoringFacts.mc_model_facts m Hm) as (Hr & Hd).
  assert (HF : Forall (fun x => 0 <= eval_a m x <= 2) regions).
  { unfold regions. repeat constructor; cbn [eval_a WA NT SA Q NSW V T];
      intuition. }
  exists (map (fun x => name_of (eval_a m x)) regions).
  split.
  { unfold decode_cell, guard, Py.assert_. cbn [CheckSatResult_eq Py.bind].
    now apply decode_in_range. }
  split; [reflexivity|]. split.
  - apply Forall_forall. intros n Hn. apply in_map_iff in Hn.
    destruct Hn as [x [<- Hx]]. rewrite Forall_forall in HF.
    specialize (HF x Hx). unfold name_of.
    destruct (eval_a m x =? 0); [cbn; tauto|].
    destruct (eval_a m x =? 1); cbn; tauto.
  - intros u v Hin.
    assert (Hu : 0 <= eval_a m u <= 2 /\ 0 <= eval_a m v <= 2 /\
                 eval_a m u <> eval_a m v).
    { unfold asserted_borders in Hin. cbn [In] in Hin.
      repeat (destruct Hin as [Hin|Hin];
              [injection Hin as <- <-;
               cbn [eval_a WA NT SA Q NSW V T]; intuition|]).
      contradiction. }
    destruct Hu as (Hu & Hv & Hne).
    exists (name_of (eval_a m u)), (name_of (eval_a m v)).
    split; [now apply color_name_in_range|].
    split; [now apply color_name_in_range|].
    intros Heq. apply Hne. now apply name_of_inj.
Qed.

Lemma mc_decode_total_or_KeyError_witness :
  decode printed_model
    = Py.Ok ["Blue"; "Red"; "Green"; "Blue"; "Red"; "Blue"; "Blue"] /\
  decode (fun _ => 3) = Py.Raise Py.KeyError.
Proof.
  split.
  - apply (proj1 (mc_decode_total_or_KeyError printed_model)).
    unfold regions. repeat constructor; vm_compute; discriminate.
  - apply (proj2 (mc_decode_total_or_KeyError (fun _ => 3))).
    unfold regions. apply Exists_cons_hd. cbn [eval_a WA]. lia.
Defined.

Lemma mc_decode_cell_on_models_witness :
  models printed_model mc_solver = true /\
  exists names, decode_cell sat (Py.Ok printed_model) = Py.Ok names /\
                List.length names = 7%nat.
Proof.
  split; [reflexivity|].
  destruct (mc_decode_cell_on_models printed_model eq_refl)
    as (names & H1 & H2 & _).
  exists names. split; assumption.
Defined.

(** X9: in every model Western Australia, the Northern Territory and
    South Australia take three different colours, so each of the
    colours 0, 1, 2 is used, and Queensland always has Western
    Australia's colour. *)
Theorem mc_three_colours_needed (m : Model) :
  models m mc_solver = true ->
  (forall c, 0 <= c <= 2 -> c = m "WA" \/ c = m "NT" \/ c = m "SA") /\
  m "Q" = m "WA".
Proof.
  intros Hm. destruct (MapColoringFacts.mc_model_facts m Hm) as (Hr & Hd).
  split; [intros c Hc|]; lia.
Qed.

Lemma mc_three_colours_needed_witness :
  models printed_model mc_solver = true /\
  printed_model "Q" = printed_model "WA".
Proof.
  split; [reflexivity|].
  exact (proj2 (mc_three_colours_needed printed_model eq_refl)).
Defined.

End MapDecoding.

(** ** Sudoku: boards of any content and shape *)

Module SudokuEncoding.
Import Sudoku SudokuBoards.

Lemma In_all_cells (i j : Z) :
  In (i, j) all_cells <-> 0 <= i < 9 /\ 0 <= j < 9.
Proof.
  unfold all_cells. rewrite PyFacts.In_for2, !PyFacts.In_range. lia.
Qed.

Lemma boxes_shape :
  List.length boxes = 9%nat /\
  forall i, (i < 9)%nat -> List.length (nth i boxes []) = 9%nat.
Proof.
  split; [reflexivity|]. intros i Hi.
  do 9 (destruct i as [|i]; [reflexivity|]). lia.
Qed.

Lemma boxes_getitem2 (i j : Z) :
  0 <= i < 9 -> 0 <= j < 9 ->
  boxes.[i, j] = Py.Ok (box (Z.to_nat i) (Z.to_nat j)).
Proof.
  intros Hi Hj. destruct boxes_shape as [Hlen Hrows].
  unfold Py.getitem2, box.
  rewrite (PyExtra.getitem_nth [] boxes i) by lia. cbn [Py.bind].
  apply PyExtra.getitem_nth; [lia|]. rewrite Hrows; lia.
Qed.

Lemma board_getitem2 (b : list (list Z)) (i j : Z) :
  has_81_cells b -> 0 <= i < 9 -> 0 <= j < 9 ->
  b.[i, j] = Py.Ok (cell (Z.to_nat i) (Z.to_nat j) b).
Proof.
  intros [Hlen Hrows] Hi Hj. unfold Py.getitem2, cell.
  rewrite (PyExtra.getitem_nth [] b i) by lia. cbn [Py.bind].
  apply PyExtra.getitem_nth; [lia|].
  specialize (Hrows (Z.to_nat i)). lia.
Qed.

Lemma given_c_eq (b : list (list Z)) :
  has_81_cells b -> given_c b = Py.Ok (map (conditional_at b) all_cells).
Proof.
  intros Hb. unfold given_c. apply PyFacts.traverse_ok.
  intros [i j] Hin. apply In_all_cells in Hin. destruct Hin as [Hi Hj].
  unfold conditional. rewrite board_getitem2, boxes_getitem2 by assumption.
  reflexivity.
Qed.

Lemma length_all_cells : List.length all_cells = 81%nat.
Proof. reflexivity. Qed.

(** A board that cannot be indexed has a row missing or a short row
    among the first nine. *)
Lemma short_board (b : list (list Z)) :
  ~ has_81_cells b ->
  (List.length b < 9)%nat \/
  exists i, (i < 9)%nat /\ (i < List.length b)%nat /\
            (List.length (nth i b []) < 9)%nat.
Proof.
  intros Hnot.
  destruct (Nat.le_gt_cases 9 (List.length b)) as [Hlen|Hlen];
    [right | now left].
  assert (Hdec : forall n, (n <= 9)%nat ->
            (forall i, (i < n)%nat -> (9 <= List.length (nth i b []))%nat) \/
            exists i, (i < n)%nat /\ (List.length (nth i b []) < 9)%nat).
  { induction n as [|n IH]; intros Hn.
    - left. intros i Hi. lia.
    - destruct IH as [IH|[i [Hi Hs]]]; [lia | | right; exists i; split; lia].
      destruct (Nat.le_gt_cases 9 (List.length (nth n b []))) as [Hr|Hr].
      + left. intros i Hi.
        destruct (Nat.eq_dec i n) as [->|]; [assumption | apply IH; lia].
      + right. exists n. split; lia. }
  destruct (Hdec 9%nat (le_n _)) as [Hall|[i [Hi Hs]]].
  - exfalso. apply Hnot. now split.
  - exists i. repeat split; lia.
Qed.

(** X10: the puzzle cell on an arbitrary board.  A board with at
    least nine rows, each of the first nine with at least nine
    entries, gives a solver with 189 assertions; entries beyond the
    ninth are never read.  Any other board makes the cell raise
    [IndexError]. *)
Theorem s_solver_for_shape (b : list (list Z)) :
  (has_81_cells b ->
   exists s, s_solver_for b = Py.Ok s /\ List.length s = 189%nat) /\
  (~ has_81_cells b -> s_solver_for b = Py.Raise Py.IndexError).
Proof.
  assert (HG : exists G, general = Py.Ok G /\ List.length G = 108%nat)
    by (eexists; split; reflexivity).
  destruct HG as [G [HG HlenG]].
  unfold s_solver_for. rewrite HG. cbn [Py.bind]. split.
  - intros Hb. rewrite given_c_eq by assumption. cbn [Py.bind].
    eexists. split; [reflexivity|].
    unfold add. rewrite length_app, length_map, length_all_cells. lia.
  - intros Hnot. unfold given_c.
    rewrite (PyExtra.traverse_raises (conditional b) all_cells Py.IndexError);
      [reflexivity | | ].
    + intros [i j] e _. unfold conditional.
      destruct (b.[i, j]) as [g|e1] eqn:E1; cbn [Py.bind].
      * destruct (boxes.[i, j]) as [x|e2] eqn:E2; cbn [Py.bind];
          [discriminate|].
        intros [= <-]. now apply PyExtra.getitem2_raises in E2.
      * intros [= <-]. now apply PyExtra.getitem2_raises in E1.
    + destruct (short_board b Hnot) as [Hlen|[i [Hi [Hib Hs]]]].
      * exists (8, 0). split; [apply In_all_cells; lia|].
        unfold conditional, Py.getitem2.
        rewrite PyExtra.getitem_past_end by (simpl; lia). reflexivity.
      * exists (Z.of_nat i, 8). split; [apply In_all_cells; lia|].
        unfold conditional, Py.getitem2.
        rewrite (PyExtra.getitem_nth [] b) by lia. cbn [Py.bind].
        rewrite Nat2Z.id.
        rewrite PyExtra.getitem_past_end by (simpl; lia). reflexivity.
Qed.

Lemma s_solver_for_shape_witness :
  (exists s, s_solver_for board = Py.Ok s /\ List.length s = 189%nat) /\
  s_solver_for [[1; 2; 3]] = Py.Raise Py.IndexError.
Proof.
  split.
  - apply (proj1 (s_solver_for_shape board)). split; [simpl; lia|].
    intros i Hi. do 9 (destruct i as [|i]; [simpl; lia|]). lia.
  - apply (proj2 (s_solver_for_shape [[1; 2; 3]])).
    intros [Hlen _]. simpl in Hlen. lia.
Defined.

Lemma complete_iff (l : list Z) :
  List.length l = 9%nat ->
  (complete l <-> NoDup l /\ Forall (fun v => 1 <= v <= 9) l).
Proof.
  intros Hlen. split.
  - intros Hc.
    assert (Hincl : incl (map Z.of_nat (seq 1 9)) l).
    { intros d Hd. apply in_map_iff in Hd. destruct Hd as [k [<- Hk]].
      apply in_seq in Hk. apply (count_occ_In Z.eq_dec).
      rewrite Hc by lia. lia. }
    assert (Hnd : NoDup (map Z.of_nat (seq 1 9))).
    { apply PyExtra.NoDup_map_on; [apply seq_NoDup|].
      intros x y _ _. apply Nat2Z.inj. }
    split.
    + apply (NoDup_incl_NoDup Hnd); [|assumption].
      rewrite length_map, length_seq. lia.
    + apply Forall_forall. intros v Hv.
      assert (Hback : incl l (map Z.of_nat (seq 1 9))).
      { apply NoDup_length_incl; [assumption | | assumption].
        rewrite length_map, length_seq. lia. }
      apply Hback in Hv. apply in_map_iff in Hv.
      destruct Hv as [k [<- Hk]]. apply in_seq in Hk. lia.
  - intros [Hnd HF]. now apply SudokuFacts.nine_distinct_complete.
Qed.

Lemma decode_cell_value (m : Model) (i j : nat) :
  cell i j (decode m) = eval_a m (box i j).
Proof.
  unfold cell, decode, box.
  change (@nil Z) with (map (eval_a m) []). rewrite map_nth.
  change 0 with (eval_a m (IntVal 0)). now rewrite map_nth.
Qed.

Ltac unit_facts H :=
  apply complete_iff in H; [|reflexivity];
  let Hnd := fresh "Hnd" in
  let HF := fresh "HF" in
  destruct H as [Hnd HF];
  repeat (apply Forall_cons_iff in HF;
          let Hv := fresh "Hv" in destruct HF as [Hv HF]);
  clear HF.

(** The general constraints say exactly that the grid read from the
    model is a solved sudoku grid. *)
Lemma general_models_iff (G : Solver) (m : Model) :
  general = Py.Ok G -> (models m G = true <-> is_solved (decode m)).
Proof.
  intros HG. vm_compute in HG. injection HG as <-. split.
  - intros Hm. split_models Hm. reflect_evals.
    repeat match goal with
           | H : eval _ (DistinctN _) = true |- _ =>
               apply Z3Facts.eval_Distinct in H; cbn [map eval_a] in H
           end.
    let g := eval vm_compute in (decode m) in change (decode m) with g.
    split; [|split].
    + intros i Hi.
      do 9 (destruct i as [|i];
            [apply SudokuFacts.nine_distinct_complete;
             [reflexivity | assumption
              | repeat constructor; assumption]|]).
      exfalso; lia.
    + intros j Hj.
      do 9 (destruct j as [|j];
            [apply SudokuFacts.nine_distinct_complete;
             [reflexivity | assumption
              | repeat constructor; assumption]|]).
      exfalso; lia.
    + intros i0 j0 Hi Hj.
      do 3 (destruct i0 as [|i0];
            [do 3 (destruct j0 as [|j0];
                   [apply SudokuFacts.nine_distinct_complete;
                    [reflexivity | assumption
                     | repeat constructor; assumption]|]);
             exfalso; lia|]).
      exfalso; lia.
  - intros (Hrows & Hcols & Hblocks).
    pose proof (Hrows 0%nat ltac:(lia)) as R0.
    pose proof (Hrows 1%nat ltac:(lia)) as R1.
    pose proof (Hrows 2%nat ltac:(lia)) as R2.
    pose proof (Hrows 3%nat ltac:(lia)) as R3.
    pose proof (Hrows 4%nat ltac:(lia)) as R4.
    pose proof (Hrows 5%nat ltac:(lia)) as R5.
    pose proof (Hrows 6%nat ltac:(lia)) as R6.
    pose proof (Hrows 7%nat ltac:(lia)) as R7.
    pose proof (Hrows 8%nat ltac:(lia)) as R8.
    pose proof (Hcols 0%nat ltac:(lia)) as C0.
    pose proof (Hcols 1%nat ltac:(lia)) as C1.
    pose proof (Hcols 2%nat ltac:(lia)) as C2.
    pose proof (Hcols 3%nat ltac:(lia)) as C3.
    pose proof (Hcols 4%nat ltac:(lia)) as C4.
    pose proof (Hcols 5%nat ltac:(lia)) as C5.
    pose proof (Hcols 6%nat ltac:(lia)) as C6.
    pose proof (Hcols 7%nat ltac:(lia)) as C7.
    pose proof (Hcols 8%nat ltac:(lia)) as C8.
    pose proof (Hblocks 0%nat 0%nat ltac:(lia) ltac:(lia)) as B00.
    pose proof (Hblocks 0%nat 1%nat ltac:(lia) ltac:(lia)) as B01.
    pose proof (Hblocks 0%nat 2%nat ltac:(lia) ltac:(lia)) as B02.
    pose proof (Hblocks 1%nat 0%nat ltac:(lia) ltac:(lia)) as B10.
    pose proof (Hblocks 1%nat 1%nat ltac:(lia) ltac:(lia)) as B11.
    pose proof (Hblocks 1%nat 2%nat ltac:(lia) ltac:(lia)) as B12.
    pose proof (Hblocks 2%nat 0%nat ltac:(lia) ltac:(lia)) as B20.
    pose proof (Hblocks 2%nat 1%nat ltac:(lia) ltac:(lia)) as B21.
    pose proof (Hblocks 2%nat 2%nat ltac:(lia) ltac:(lia)) as B22.
    clear Hrows Hcols Hblocks.
    let g := eval vm_compute in (decode m) in
      change (decode m) with g in *.
    cbn [nth column block map flat_map firstn skipn app Nat.mul Nat.add]
      in *.
    unit_facts R0. unit_facts R1. unit_facts R2. unit_facts R3.
    unit_facts R4. unit_facts R5. unit_facts R6. unit_facts R7.
    unit_facts R8.
    apply complete_iff in C0, C1, C2, C3, C4, C5, C6, C7, C8;
      try reflexivity.
    apply complete_iff in B00, B01, B02, B10, B11, B12, B20, B21, B22;
      try reflexivity.
    repeat (apply Z3Facts.models_cons; split);
      try reflexivity;
      first [ apply Z3Facts.eval_And; split;
              [apply Z3Facts.eval_Ge | apply Z3Facts.eval_Le];
              cbn [eval_a]; lia
            | apply Z3Facts.eval_Distinct; cbn [map eval_a];
              tauto ].
Qed.

Lemma givens_models_iff (b : list (list Z)) (m : Model) :
  models m (map (conditional_at b) all_cells) = true
  <-> keeps_givens b (decode m).
Proof.
  rewrite Z3Facts.models_In. split.
  - intros H i j Hi Hj Hne.
    assert (Hc : eval m (conditional_at b (Z.of_nat i, Z.of_nat j)) = true).
    { apply H. apply in_map. apply In_all_cells. lia. }
    unfold conditional_at in Hc. cbn [fst snd eval] in Hc.
    rewrite !Nat2Z.id in Hc.
    apply Z.eqb_neq in Hne. rewrite Hne in Hc.
    apply Z.eqb_eq in Hc. cbn [eval_a] in Hc.
    now rewrite decode_cell_value.
  - intros H c Hc. apply in_map_iff in Hc.
    destruct Hc as [[i j] [<- Hin]]. apply In_all_cells in Hin.
    unfold conditional_at. cbn [fst snd eval].
    destruct (cell (Z.to_nat i) (Z.to_nat j) b =? 0) eqn:E; [reflexivity|].
    apply Z.eqb_eq. cbn [eval_a]. rewrite <- decode_cell_value.
    apply H; [lia | lia | now apply Z.eqb_neq].
Qed.

(** X11: for every board the puzzle cell can index, the instance
    says exactly what the puzzle asks.  An assignment is a model if
    and only if the grid read from it has every nonzero entry of the
    board in its place and holds each digit 1..9 exactly once in every
    row, column and 3x3 block. *)
Theorem s_solver_for_models_iff (b : list (list Z)) :
  has_81_cells b ->
  exists s, s_solver_for b = Py.Ok s /\
            forall m, models m s = true
                      <-> keeps_givens b (decode m) /\ is_solved (decode m).
Proof.
  intros Hb.
  assert (HG : exists G, general = Py.Ok G) by (eexists; reflexivity).
  destruct HG as [G HG].
  exists (add G (map (conditional_at b) all_cells)). split.
  - unfold s_solver_for. rewrite HG, given_c_eq by assumption. reflexivity.
  - intros m. unfold add. rewrite Z3Facts.models_app, andb_true_iff.
    rewrite (general_models_iff G m HG), givens_models_iff. tauto.
Qed.

Lemma s_solver_for_models_iff_witness :
  has_81_cells board /\
  exists s, s_solver_for board = Py.Ok s /\
            (models (model_of printed_grid) s = true
             <-> keeps_givens board (decode (model_of printed_grid)) /\
                 is_solved (decode (model_of printed_grid))).
Proof.
  assert (Hb : has_81_cells board).
  { split; [simpl; lia|].
    intros i Hi. do 9 (destruct i as [|i]; [simpl; lia|]). lia. }
  split; [exact Hb|].
  destruct (s_solver_for_models_iff board Hb) as [s [Hs H]].
  exists s. split; [exact Hs | exact (H _)].
Defined.

End SudokuEncoding.

(** ** Sudoku: the notebook's puzzle has one solution *)

Module SudokuUnique.
Import Sudoku SudokuSearch.

Lemma peer_table_nth (k : nat) :
  (k < 81)%nat -> nth k peer_table [] = peers k.
Proof.
  intros Hk.
  assert (E : peer_table = map peers (seq 0 81)) by (vm_compute; reflexivity).
  rewrite E. rewrite (nth_indep _ [] (peers 0)) by
    (rewrite length_map, length_seq; exact Hk).
  rewrite map_nth, seq_nth by exact Hk. reflexivity.
Qed.

Lemma memb_In (k : nat) (u : list nat) : memb k u = true -> In k u.
Proof.
  unfold memb. intros H. apply existsb_exists in H.
  destruct H as [x [Hx Heq]]. apply Nat.eqb_eq in Heq. now subst.
Qed.

Lemma peers_spec (k p : nat) :
  In p (peers k) ->
  p <> k /\ (p < 81)%nat /\ exists u, In u units /\ In p u /\ In k u.
Proof.
  unfold peers. intros H. apply filter_In in H. destruct H as [Hseq Hb].
  apply in_seq in Hseq. apply andb_prop in Hb. destruct Hb as [Hne Hex].
  apply negb_true_iff, Nat.eqb_neq in Hne.
  apply existsb_exists in Hex. destruct Hex as [u [Hu Hm]].
  apply andb_prop in Hm. destruct Hm as [Hp Hk].
  split; [assumption|]. split; [lia|].
  exists u. auto using memb_In.
Qed.

Lemma firstn_S_nth {A} (d : A) (l : list A) (k : nat) :
  (k < List.length l)%nat -> firstn (S k) l = firstn k l ++ [nth k l d].
Proof.
  revert l. induction k as [|k IH]; intros [|x l] Hk; simpl in *;
    try lia; [reflexivity|].
  f_equal. apply IH. lia.
Qed.

Lemma skipn_cons_nth {A} (d : A) (l : list A) (k : nat) (x : A)
  (r : list A) :
  skipn k l = x :: r -> x = nth k l d /\ r = skipn (S k) l.
Proof.
  revert l. induction k as [|k IH]; intros [|y l] H; simpl in *;
    try discriminate.
  - injection H as <- <-. now split.
  - now apply IH.
Qed.

Section Completeness.

Variables givens g : list Z.
Hypothesis Hvalid : valid givens g.
Hypothesis Hgivens : List.length givens = 81%nat.

(** A partly filled grid on the way to [g] holds, in each cell, 0 or
    [g]'s digit. *)
Lemma partial_cell (k p : nat) :
  (k <= 81)%nat -> (p < 81)%nat ->
  nth p (firstn k g ++ skipn k givens) 0 = 0 \/
  nth p (firstn k g ++ skipn k givens) 0 = nth p g 0.
Proof.
  destruct Hvalid as (Hlen & _ & Hgiv & _). intros Hk Hp.
  assert (Hlk : List.length (firstn k g) = k)
    by (apply firstn_length_le; lia).
  destruct (Nat.lt_ge_cases p k) as [Hlt|Hge].
  - right. rewrite app_nth1 by lia. rewrite nth_firstn.
    apply Nat.ltb_lt in Hlt. now rewrite Hlt.
  - rewrite app_nth2 by lia. rewrite Hlk, nth_skipn.
    replace (k + (p - k))%nat with p by lia.
    destruct (Z.eq_dec (nth p givens 0) 0) as [Hz|Hnz]; [now left|].
    right. symmetry. now apply Hgiv.
Qed.

Lemma own_digit_allowed (k : nat) :
  (k < 81)%nat ->
  candidate_ok (firstn k g ++ skipn k givens) k (nth k g 0) = true.
Proof.
  intros Hk. destruct Hvalid as (Hlen & Hrange & Hgiv & Hunits).
  unfold candidate_ok. rewrite peer_table_nth by exact Hk.
  apply forallb_forall. intros p Hp. apply peers_spec in Hp.
  destruct Hp as (Hne & Hp81 & u & Hu & Hpu & Hku).
  apply negb_true_iff, Z.eqb_neq.
  destruct (partial_cell k p) as [H0|Hg]; [lia | lia | |].
  - rewrite H0. rewrite Forall_forall in Hrange.
    assert (Hin : In (nth k g 0) g) by (apply nth_In; lia).
    apply Hrange in Hin. lia.
  - rewrite Hg. intros Heq. apply Hne.
    apply (PyFacts.NoDup_map_injective (fun i => nth i g 0) u p k);
      auto.
Qed.

Lemma search_complete (rest done : list Z) (k : nat) :
  (k <= 81)%nat -> done = firstn k g -> rest = skipn k givens ->
  In g (search done rest).
Proof.
  destruct Hvalid as (Hlen & Hrange & Hgiv & Hunits).
  revert done k. induction rest as [|x rest' IH]; intros done k Hk Hd Hr.
  - cbn [search]. left. subst done.
    assert (k = 81%nat).
    { apply (f_equal (@List.length Z)) in Hr. rewrite length_skipn in Hr.
      simpl in Hr. lia. }
    subst k. apply firstn_all2. lia.
  - assert (Hk81 : (k < 81)%nat).
    { apply (f_equal (@List.length Z)) in Hr. rewrite length_skipn in Hr.
      simpl in Hr. lia. }
    destruct (skipn_cons_nth 0 givens k x rest' (eq_sym Hr)) as [Hx Hrest].
    assert (Hdone : List.length done = k)
      by (subst done; apply firstn_length_le; lia).
    cbn [search]. destruct (x =? 0) eqn:Ex.
    + apply in_flat_map. exists (nth k g 0). split.
      * rewrite Forall_forall in Hrange.
        assert (Hin : In (nth k g 0) g) by (apply nth_In; lia).
        apply Hrange in Hin. unfold digits. cbn [In]. lia.
      * rewrite Hdone, Hd, Hr, own_digit_allowed by exact Hk81.
        apply (IH _ (S k)); [lia | | exact Hrest].
        symmetry. apply firstn_S_nth. lia.
    + apply (IH _ (S k)); [lia | | exact Hrest].
      apply Z.eqb_neq in Ex. rewrite Hd, Hx.
      rewrite <- (Hgiv k Hk81) by (rewrite <- Hx; exact Ex).
      symmetry. apply firstn_S_nth. lia.
Qed.

(** Every valid filling of the givens is found by the search. *)
Lemma search_finds : In g (search [] givens).
Proof. apply (search_complete givens [] 0%nat); [lia | reflexivity..]. Qed.

End Completeness.

(** The grid read from a model of the notebook's instance is a valid
    filling of the notebook's board. *)
Lemma model_grid_valid (s : Solver) (m : Model) :
  s_solver = Py.Ok s -> models m s = true ->
  valid (List.concat board) (List.concat (decode m)).
Proof.
  intros Hs Hm. vm_compute in Hs. injection Hs as <-.
  split_models Hm. reflect_evals.
  repeat match goal with
         | H : eval _ (DistinctN _) = true |- _ =>
             apply Z3Facts.eval_Distinct in H; cbn [map eval_a] in H
         | H : eval _ (If (BoolVal true) _ _) = true |- _ => clear H
         end.
  let g := eval vm_compute in (List.concat (decode m)) in
    change (List.concat (decode m)) with g.
  let b := eval vm_compute in (List.concat board) in
    change (List.concat board) with b.
  split; [reflexivity|]. split; [|split].
  - repeat constructor; assumption.
  - intros k Hk.
    do 81 (destruct k as [|k];
           [cbn [nth]; intros Hz;
            first [ assumption | exfalso; apply Hz; reflexivity ]|]).
    exfalso; lia.
  - intros u Hu.
    let us := eval vm_compute in units in change units with us in Hu.
    cbn [In] in Hu.
    repeat (destruct Hu as [<-|Hu]; [cbn [map nth]; assumption|]).
    contradiction.
Qed.

(** The grid read from a model is the printed grid. *)
Lemma model_grid_printed (s : Solver) (m : Model) :
  s_solver = Py.Ok s -> models m s = true -> decode m = printed_grid.
Proof.
  intros Hs Hm.
  pose proof (search_finds _ _ (model_grid_valid s m Hs Hm) eq_refl)
    as Hin.
  assert (E : search [] (List.concat board) = [List.concat printed_grid])
    by (vm_compute; reflexivity).
  rewrite E in Hin. destruct Hin as [Heq|[]].
  revert Heq.
  let g := eval vm_compute in (decode m) in change (decode m) with g.
  let c := eval vm_compute in (List.concat printed_grid) in
    change (List.concat printed_grid) with c.
  cbn [List.concat app]. intros Heq. injection Heq. intros.
  repeat match goal with
         | H : _ = m _ |- _ => rewrite <- H; clear H
         end.
  reflexivity.
Qed.

(** X12: the notebook's puzzle has exactly one solution.  An
    assignment is a model of the sudoku instance if and only if the
    grid the decoding loop reads from it is the grid shown in the
    notebook's output. *)
Theorem s_solver_unique_grid (s : Solver) (m : Model) :
  s_solver = Py.Ok s ->
  (models m s = true <-> decode m = printed_grid).
Proof.
  intros Hs. split.
  - now apply model_grid_printed.
  - let g := eval vm_compute in (decode m) in change (decode m) with g.
    unfold printed_grid. intros Heq. injection Heq. intros.
    vm_compute in Hs. injection Hs as <-.
    unfold models. cbn [forallb eval eval_a map distinctb existsb].
    repeat match goal with
           | H : m _ = _ |- _ => rewrite H; clear H
           end.
    reflexivity.
Qed.

Lemma s_solver_unique_grid_witness :
  exists s, s_solver = Py.Ok s /\
            (models (model_of printed_grid) s = true
             <-> decode (model_of printed_grid) = printed_grid).
Proof.
  eexists. split; [reflexivity|].
  apply (s_solver_unique_grid _ (model_of printed_grid)). reflexivity.
Defined.

Import SudokuDisplay.

Lemma fold_left_ext_In {A B} (f g : A -> B -> A) (l : list B) (a : A) :
  (forall acc x, In x l -> f acc x = g acc x) ->
  fold_left f l a = fold_left g l a.
Proof.
  revert a. induction l as [|x r IH]; intros a H; cbn [fold_left].
  - reflexivity.
  - rewrite (H a x) by now left. apply IH.
    intros acc y Hy. apply H. now right.
Qed.

Lemma map_eq_In {A B} (f g : A -> B) (l : list A) (x : A) :
  map f l = map g l -> In x l -> f x = g x.
Proof.
  induction l as [|a r IH]; cbn [map In]; intros Heq Hin.
  - contradiction.
  - injection Heq as Ha Hr. destruct Hin as [<-|Hin]; auto.
Qed.

Lemma in_enumerate {A} (l : list A) (i : Z) (x : A) :
  In (i, x) (enumerate l) -> In x l.
Proof. unfold enumerate. apply in_combine_r. Qed.

(** The printed text depends on the model only through the grid the
    loop reads. *)
Lemma display_ext (m m' : Model) :
  decode m = decode m' -> display m = display m'.
Proof.
  intros Heq. unfold display. apply fold_left_ext_In.
  intros out [row bs] Hin. apply in_enumerate in Hin.
  assert (Hrow : map (eval_a m) bs = map (eval_a m') bs)
    by (apply (map_eq_In _ _ boxes bs Heq Hin)).
  f_equal. apply fold_left_ext_In.
  intros acc [col box] Hb. apply in_enumerate in Hb.
  now rewrite (map_eq_In _ _ bs box Hrow Hb).
Qed.

(** X14: after a sat verdict, the decoding cell run on any model of
    the sudoku instance prints exactly the eleven lines recorded in
    the notebook: the nine rows of the solved grid with a column bar
    after every third digit and a rule after every third row. *)
Theorem display_cell_prints_recorded (s : Solver) (m : Model) :
  s_solver = Py.Ok s -> models m s = true ->
  display_cell sat (Py.Ok m) = Py.Ok recorded_output.
Proof.
  intros Hs Hm.
  unfold display_cell, guard, Py.assert_. cbn [CheckSatResult_eq Py.bind].
  f_equal.
  rewrite (display_ext m (model_of printed_grid)).
  - vm_compute. reflexivity.
  - rewrite (model_grid_printed s m Hs Hm). vm_compute. reflexivity.
Qed.

Lemma display_cell_prints_recorded_witness :
  exists s, s_solver = Py.Ok s /\
            models (model_of printed_grid) s = true /\
            display_cell sat (Py.Ok (model_of printed_grid))
            = Py.Ok recorded_output.
Proof.
  eexists. split; [reflexivity|]. split; [vm_compute; reflexivity|].
  eapply display_cell_prints_recorded; [reflexivity | vm_compute; reflexivity].
Defined.

End SudokuUnique.
